(** * Knowledge Garden CLI web dashboard: the HTTP front door of [main.go]

    A shallow embedding of [main.go] (package [main]) together with a model
    of the parts of Go's runtime and of the [gofiber/fiber/v2] framework that
    the program calls.  The program's own functions ([getEnv], [setupFiber],
    [securityHeaders], [setupRoutes], [customErrorHandler], [main]) are
    translated one to one; the framework is modelled as far as the program
    drives it. *)

From Stdlib Require Import ZArith NArith List String Ascii Bool Lia.
From stdpp Require Import base option gmap strings list pretty.

Local Open Scope string_scope.
Local Open Scope Z_scope.

(* ===================================================================== *)
(** ** Go runtime: process environment, file system, paths               *)
(* ===================================================================== *)

(** A cleaned absolute path, as its components below the root:
    [/srv/web] is [["srv"; "web"]]. *)
Abbreviation FilePath := (list string).

(** [filepath.Join(dir, name)] for a clean [dir] and a plain file name. *)
Definition filepath_Join (dir : FilePath) (name : string) : FilePath :=
  dir ++ [name].

(** What a path holds on disk.  A path absent from the map does not exist. *)
Inductive File :=
  | Regular (content : string)   (* a file the process may read *)
  | Unreadable.                  (* exists, but reading is refused *)

(** The [error] values of [os.ReadFile]. *)
Inductive PathError := ErrNotExist | ErrPermission.

(** The answer of fasthttp's file handler for a static asset. *)
Record StaticFile := {
  sf_status : Z;
  sf_contentType : string;
  sf_body : string;
}.

(** One line of the request log. *)
Record LogLine := {
  log_method : string;
  log_path : string;
  log_status : Z;
}.

(** An entry of the rate limiter's storage. *)
Record Entry := {
  currHits : Z;
  exp : N;
}.

(** Everything outside a single request that the server reads or writes. *)
Record World := {
  now : N;                                   (* clock, in seconds *)
  files : gmap (list string) File;           (* the file system *)
  static_fs : list string -> string -> option StaticFile;
                                             (* the asset tree below a root, as
                                                the file handler sees it; [None]
                                                where it answers 404 or 403 *)
  hits : gmap string Entry;                  (* storage of the rate limiter *)
  reads : list (list string);                (* os.ReadFile calls, newest first *)
  logs : list LogLine;                       (* request log, newest first *)
}.

Definition set_now (t : N) (w : World) : World :=
  {| now := t; files := files w; static_fs := static_fs w; hits := hits w;
     reads := reads w; logs := logs w |}.

Definition set_files (fs : gmap (list string) File) (w : World) : World :=
  {| now := now w; files := fs; static_fs := static_fs w; hits := hits w;
     reads := reads w; logs := logs w |}.

Definition set_hits (h : gmap string Entry) (w : World) : World :=
  {| now := now w; files := files w; static_fs := static_fs w; hits := h;
     reads := reads w; logs := logs w |}.

Definition add_read (p : FilePath) (w : World) : World :=
  {| now := now w; files := files w; static_fs := static_fs w; hits := hits w;
     reads := p :: reads w; logs := logs w |}.

Definition add_log (l : LogLine) (w : World) : World :=
  {| now := now w; files := files w; static_fs := static_fs w; hits := hits w;
     reads := reads w; logs := l :: logs w |}.

(** [os.ReadFile(name)]: one read of the file system, recorded in [reads]. *)
Definition os_ReadFile (w : World) (name : FilePath)
  : (string + PathError) * World :=
  (match files w !! name with
   | Some (Regular content) => inl content
   | Some Unreadable => inr ErrPermission
   | None => inr ErrNotExist
   end, add_read name w).

(** [os.Getenv(key)]: the empty string when the variable is not set. *)
Definition os_Getenv (env : gmap string string) (key : string) : string :=
  default "" (env !! key).

(* ===================================================================== *)
(** ** main.go: getEnv                                                    *)
(* ===================================================================== *)

Definition getEnv (env : gmap string string) (key defaultValue : string)
  : string :=
  let value := os_Getenv env key in
  if negb (String.eqb value "") then value else defaultValue.

(* ===================================================================== *)
(** ** fiber/v2: requests, responses, the request context                 *)
(* ===================================================================== *)

(** The request methods fiber routes ([fiber.DefaultMethods]).  A request
    line with any other method name is refused by the framework before a
    handler runs, as a malformed request is; such input is not a [Request]. *)
Inductive Method :=
  | MethodGet | MethodHead | MethodPost | MethodPut | MethodDelete
  | MethodConnect | MethodOptions | MethodTrace | MethodPatch.

Definition Method_eqb (a b : Method) : bool :=
  match a, b with
  | MethodGet, MethodGet | MethodHead, MethodHead | MethodPost, MethodPost
  | MethodPut, MethodPut | MethodDelete, MethodDelete
  | MethodConnect, MethodConnect | MethodOptions, MethodOptions
  | MethodTrace, MethodTrace | MethodPatch, MethodPatch => true
  | _, _ => false
  end.

Definition Method_name (m : Method) : string :=
  match m with
  | MethodGet => "GET" | MethodHead => "HEAD" | MethodPost => "POST"
  | MethodPut => "PUT" | MethodDelete => "DELETE" | MethodConnect => "CONNECT"
  | MethodOptions => "OPTIONS" | MethodTrace => "TRACE" | MethodPatch => "PATCH"
  end.

Definition DefaultMethods : list Method :=
  [MethodGet; MethodHead; MethodPost; MethodPut; MethodDelete;
   MethodConnect; MethodOptions; MethodTrace; MethodPatch].

Definition StatusOK : Z := 200.
Definition StatusNoContent : Z := 204.
Definition StatusNotFound : Z := 404.
Definition StatusMethodNotAllowed : Z := 405.
Definition StatusTooManyRequests : Z := 429.
Definition StatusInternalServerError : Z := 500.

(** [utils.StatusMessage], on the codes this program can produce. *)
Definition StatusMessage (code : Z) : string :=
  if code =? 200 then "OK"
  else if code =? 204 then "No Content"
  else if code =? 404 then "Not Found"
  else if code =? 405 then "Method Not Allowed"
  else if code =? 429 then "Too Many Requests"
  else if code =? 500 then "Internal Server Error"
  else "".

(** A scalar value stored in a [fiber.Map]. *)
Inductive JValue :=
  | JNull
  | JBool (b : bool)
  | JNumber (n : Z)
  | JString (s : string).

(** A response body: bytes handed to [SendString], or the [json.Marshal]
    encoding of a [fiber.Map] (an object; its keys are unordered). *)
Inductive Body :=
  | Raw (s : string)
  | JSONOf (m : gmap string JValue).

(** A request.  Header names are in their canonical form, as fasthttp
    presents them. *)
Record Request := {
  r_method : Method;
  r_path : string;                   (* the path, without the query string *)
  r_query : string;
  r_headers : gmap string string;
  r_ip : string;                     (* remote address, [c.IP()] *)
}.

Record Response := {
  status : Z;
  headers : gmap string string;
  body : Body;
}.

Record Ctx := {
  request : Request;
  response : Response;
  matched : bool;                    (* a non-middleware route has matched *)
}.

(** Go's [error]: a [*fiber.Error], or any other error value. *)
Inductive error :=
  | FiberError (Code : Z) (Message : string)
  | OtherError (msg : string).

(** [err.Error()]. *)
Definition Error (e : error) : string :=
  match e with
  | FiberError _ m => m
  | OtherError m => m
  end.

Definition ErrMethodNotAllowed : error :=
  FiberError StatusMethodNotAllowed (StatusMessage StatusMethodNotAllowed).

(** [app.AcquireCtx]: a context with an empty response, status 200. *)
Definition AcquireCtx (r : Request) : Ctx :=
  {| request := r;
     response := {| status := StatusOK; headers := ∅; body := Raw "" |};
     matched := false |}.

Definition with_response (c : Ctx) (r : Response) : Ctx :=
  {| request := request c; response := r; matched := matched c |}.

(** [c.Set(key, val)]: sets a response header, replacing an earlier value. *)
Definition c_Set (c : Ctx) (key val : string) : Ctx :=
  with_response c
    {| status := status (response c);
       headers := <[key := val]> (headers (response c));
       body := body (response c) |}.

(** [c.Status(code)]. *)
Definition c_Status (c : Ctx) (code : Z) : Ctx :=
  with_response c
    {| status := code; headers := headers (response c);
       body := body (response c) |}.

(** [c.Get(key)]: a request header, the empty string when absent. *)
Definition c_Get (c : Ctx) (key : string) : string :=
  default "" (r_headers (request c) !! key).

(** [c.IP()]. *)
Definition c_IP (c : Ctx) : string := r_ip (request c).

Definition set_body (c : Ctx) (b : Body) : Ctx :=
  with_response c
    {| status := status (response c); headers := headers (response c);
       body := b |}.

Definition Result : Type := Ctx * World * option error.

(** A handler, [func(c *fiber.Ctx) error]; its last argument is what
    [c.Next()] runs. *)
Definition Handler : Type := Ctx -> World -> (Ctx -> World -> Result) -> Result.

(** [c.SendString(body)]: sets the body and returns nil. *)
Definition c_SendString (c : Ctx) (s : string) (w : World) : Result :=
  (set_body c (Raw s), w, None).

(** [c.JSON(data)]: the body becomes the JSON encoding of [data], the
    content type [application/json]. *)
Definition c_JSON (c : Ctx) (data : gmap string JValue) (w : World) : Result :=
  (c_Set (set_body c (JSONOf data)) "Content-Type" "application/json", w, None).

Definition body_is_empty (b : Body) : bool :=
  match b with
  | Raw s => String.eqb s ""
  | JSONOf _ => false
  end.

(** [c.SendStatus(code)]: sets the status, and the status text as body when
    the body is still empty. *)
Definition c_SendStatus (c : Ctx) (code : Z) (w : World) : Result :=
  let c := c_Status c code in
  if body_is_empty (body (response c))
  then c_SendString c (StatusMessage code) w
  else (c, w, None).

(* ===================================================================== *)
(** ** fiber/v2: the route stack                                          *)
(* ===================================================================== *)

(** [utils.ToLower]: ASCII letters to lower case, byte by byte. *)
Definition ToLower_byte (a : ascii) : ascii :=
  let n := N_of_ascii a in
  if ((65 <=? n) && (n <=? 90))%N then ascii_of_N (n + 32) else a.

Fixpoint ToLower (s : string) : string :=
  match s with
  | EmptyString => EmptyString
  | String a s' => String (ToLower_byte a) (ToLower s')
  end.

(** [bytes.TrimRight(p, "/")]. *)
Fixpoint TrimRight_slash (s : string) : string :=
  match s with
  | EmptyString => EmptyString
  | String a s' =>
      match TrimRight_slash s' with
      | EmptyString => if Ascii.eqb a "/" then EmptyString
                       else String a EmptyString
      | t => String a t
      end
  end.

Fixpoint last_byte (s : string) : option ascii :=
  match s with
  | EmptyString => None
  | String a EmptyString => Some a
  | String _ s' => last_byte s'
  end.

(** The path routes are matched against ([c.detectionPath]) under the
    default configuration: case-insensitive, non-strict routing. *)
Definition detectionPath (p : string) : string :=
  let p := ToLower p in
  if (1 <? String.length p)%nat &&
     match last_byte p with Some a => Ascii.eqb a "/" | None => false end
  then TrimRight_slash p
  else p.

Record Route := {
  rt_methods : list Method;     (* the method stacks the route is added to *)
  rt_use : bool;                (* registered as middleware: prefix match *)
  rt_root : bool;               (* the path is "/" *)
  rt_path : string;
  rt_handler : Handler;
}.

(** [fiber.Config], the fields [main.go] sets. *)
Record Config := {
  AppName : string;
  DisableStartupMessage : bool;
  EnablePrintRoutes : bool;
  ErrorHandler : Ctx -> error -> World -> Result;
}.

Record App := {
  config : Config;
  stack : list Route;           (* in order of registration *)
}.

(** [fiber.New(config)]. *)
Definition New (cfg : Config) : App := {| config := cfg; stack := [] |}.

Definition addRoute (app : App) (r : Route) : App :=
  {| config := config app; stack := stack app ++ [r] |}.

(** [app.Use(handler)]: middleware on the prefix "/", for every method. *)
Definition useRoute (h : Handler) : Route :=
  {| rt_methods := DefaultMethods; rt_use := true; rt_root := true;
     rt_path := "/"; rt_handler := h |}.

Definition Use (app : App) (h : Handler) : App := addRoute app (useRoute h).

(** [app.Get(path, handler)], which is
    [app.Head(path, handler).Add(MethodGet, path, handler)]: the handler is
    registered for HEAD and for GET, on the exact path. *)
Definition getRoute (path : string) (h : Handler) : Route :=
  {| rt_methods := [MethodHead; MethodGet]; rt_use := false;
     rt_root := String.eqb (detectionPath path) "/";
     rt_path := detectionPath path; rt_handler := h |}.

Definition Get (app : App) (path : string) (h : Handler) : App :=
  addRoute app (getRoute path h).

(** [route.match] for routes without parameters or wildcards. *)
Definition route_match (r : Route) (dpath : string) : bool :=
  if rt_root r && String.eqb dpath "/" then true
  else if rt_use r then rt_root r || String.prefix (rt_path r) dpath
  else String.eqb (rt_path r) dpath.

Definition serves_method (r : Route) (m : Method) : bool :=
  existsb (Method_eqb m) (rt_methods r).

Definition route_applies (r : Route) (c : Ctx) : bool :=
  serves_method r (r_method (request c)) &&
  route_match r (detectionPath (r_path (request c))).

Definition set_matched (c : Ctx) (b : bool) : Ctx :=
  {| request := request c; response := response c; matched := b |}.

(** [c.Append(field, value)] on a response header. *)
Definition contains_field (h value : string) : bool :=
  String.eqb h value
  || String.prefix (value +:+ ",") h
  || match String.index 0 (" " +:+ value +:+ ",") h with
     | Some _ => true | None => false end
  || (let n := String.length h in let k := String.length (" " +:+ value) in
      (k <=? n)%nat && String.eqb (String.substring (n - k) k h) (" " +:+ value)).

Definition c_Append (c : Ctx) (field value : string) : Ctx :=
  let h := default "" (headers (response c) !! field) in
  if String.eqb h "" then c_Set c field value
  else if contains_field h value then c
  else c_Set c field (h +:+ ", " +:+ value).

(** [html.EscapeString]. *)
Fixpoint html_EscapeString (s : string) : string :=
  match s with
  | EmptyString => EmptyString
  | String a s' =>
      (if Ascii.eqb a "&" then "&amp;"
       else if Ascii.eqb a "'" then "&#39;"
       else if Ascii.eqb a "<" then "&lt;"
       else if Ascii.eqb a ">" then "&gt;"
       else if Ascii.eqb a (ascii_of_nat 34) then "&#34;"
       else String a EmptyString) +:+ html_EscapeString s'
  end.

(** [app.methodExist]: the other methods that have a non-middleware route
    matching the path; each is appended to the [Allow] header. *)
Definition allowed_methods (stk : list Route) (c : Ctx) : list Method :=
  filter (fun m =>
            negb (Method_eqb m (r_method (request c))) &&
            existsb (fun r => negb (rt_use r) && serves_method r m &&
                              route_match r (detectionPath (r_path (request c))))
                    stk)
         DefaultMethods.

(** The end of the stack in [app.next]: no handler answered. *)
Definition unmatched (all : list Route) (c : Ctx) (w : World) : Result :=
  let ms := allowed_methods all c in
  if negb (matched c) && negb (Nat.eqb (length ms) 0)
  then (fold_left (fun c m => c_Append c "Allow" (Method_name m)) ms c,
        w, Some ErrMethodNotAllowed)
  else (c, w,
        Some (FiberError StatusNotFound
                ("Cannot " +:+ Method_name (r_method (request c)) +:+ " " +:+
                 html_EscapeString (r_path (request c))))).

(** [app.next]: runs the first remaining route that applies; the handler
    receives the rest of the stack as its [c.Next()]. *)
Fixpoint next (all rest : list Route) (c : Ctx) (w : World) : Result :=
  match rest with
  | [] => unmatched all c w
  | r :: rest' =>
      if route_applies r c
      then rt_handler r
             (if negb (matched c) && negb (rt_use r) then set_matched c true
              else c)
             w (next all rest')
      else next all rest' c w
  end.

(** [app.handler]: one request, from a fresh context to the response. *)
Definition handler (app : App) (w : World) (r : Request) : World * Response :=
  let '(c, w, err) := next (stack app) (stack app) (AcquireCtx r) w in
  match err with
  | None => (w, response c)
  | Some e =>
      let '(c, w, catch) := ErrorHandler (config app) c e w in
      match catch with
      | None => (w, response c)
      | Some _ =>
          let '(c, w, _) := c_SendStatus c StatusInternalServerError w in
          (w, response c)
      end
  end.

(** The reset of the response before the static handler passes on: no
    content type, status 200, empty body. *)
Definition reset_response (c : Ctx) : Ctx :=
  with_response c
    {| status := StatusOK;
       headers := delete "Content-Type" (headers (response c));
       body := Raw "" |}.

(** [app.Static(prefix, root)]: GET and HEAD below [prefix] are handed to
    the file handler; where it answers 404 or 403 the response is reset and
    the stack continues.  Of the headers the file handler writes, the model
    keeps the content type. *)
Definition static_handler (root : FilePath) : Handler :=
  fun c w nxt =>
    match static_fs w root (r_path (request c)) with
    | Some f =>
        (with_response c
           {| status := sf_status f;
              headers := <["Content-Type" := sf_contentType f]>
                           (headers (response c));
              body := Raw (sf_body f) |}, w, None)
    | None => nxt (reset_response c) w
    end.

Definition staticRoute (prefix : string) (root : FilePath) : Route :=
  {| rt_methods := [MethodGet; MethodHead]; rt_use := true;
     rt_root := String.eqb (detectionPath prefix) "/";
     rt_path := detectionPath prefix;
     rt_handler := static_handler root |}.

Definition Static (app : App) (prefix : string) (root : FilePath) : App :=
  addRoute app (staticRoute prefix root).

(* ===================================================================== *)
(** ** fiber/v2 middleware: logger, recover, compress, cors, limiter      *)
(* ===================================================================== *)

(** [logger.New]: runs the rest of the stack, hands an error of the chain to
    the application's error handler, and writes one log line. *)
Definition logger_New (errHandler : Ctx -> error -> World -> Result) : Handler :=
  fun c w nxt =>
    let '(c, w, chainErr) := nxt c w in
    let '(c, w) :=
      match chainErr with
      | None => (c, w)
      | Some e =>
          let '(c, w, err) := errHandler c e w in
          match err with
          | None => (c, w)
          | Some _ =>
              let '(c, w, _) := c_SendStatus c StatusInternalServerError w in
              (c, w)
          end
      end in
    (c, add_log {| log_method := Method_name (r_method (request c));
                   log_path := r_path (request c);
                   log_status := status (response c) |} w, None).

(** [recover.New]: [c.Next()] under a deferred [recover()].  No handler of
    this model panics, which leaves the call of [c.Next()]. *)
Definition recover_New : Handler := fun c w nxt => nxt c w.

(** [compress.New]: runs the stack, then encodes the body for transport
    as the client's [Accept-Encoding] allows.  [Body] is the payload before
    content coding, which the middleware leaves as it is. *)
Definition compress_New : Handler := fun c w nxt => nxt c w.

(** [cors.Config], the fields [main.go] sets; origins are left at the
    default, which allows every origin. *)
Record cors_Config := {
  AllowMethods : string;
  AllowHeaders : string;
}.

(** A CORS preflight: an OPTIONS request that names an origin and the
    method it asks permission for. *)
Definition is_preflight (r : Request) : bool :=
  negb (String.eqb (ToLower (default "" (r_headers r !! "Origin"))) "") &&
  Method_eqb (r_method r) MethodOptions &&
  negb (String.eqb (default "" (r_headers r !! "Access-Control-Request-Method")) "").

(** [cors.New]: a request without [Origin], or an OPTIONS request without
    [Access-Control-Request-Method], is outside CORS and passes; any other
    non-OPTIONS request passes with [Access-Control-Allow-Origin]; a
    preflight is answered here, with 204, and the stack is not continued. *)
Definition cors_New (cfg : cors_Config) : Handler :=
  fun c w nxt =>
    let originHeader := ToLower (c_Get c "Origin") in
    if String.eqb originHeader "" then nxt c w
    else if Method_eqb (r_method (request c)) MethodOptions &&
            String.eqb (c_Get c "Access-Control-Request-Method") ""
    then nxt c w
    else if negb (Method_eqb (r_method (request c)) MethodOptions)
    then nxt (c_Set c "Access-Control-Allow-Origin" "*") w
    else
      let c := c_Append c "Vary" "Access-Control-Request-Method" in
      let c := c_Append c "Vary" "Access-Control-Request-Headers" in
      let c := c_Append c "Vary" "Origin" in
      let c := c_Set c "Access-Control-Allow-Origin" "*" in
      let c := if String.eqb (AllowMethods cfg) "" then c
               else c_Set c "Access-Control-Allow-Methods" (AllowMethods cfg) in
      let c := if String.eqb (AllowHeaders cfg) ""
               then (let h := c_Get c "Access-Control-Request-Headers" in
                     if String.eqb h "" then c
                     else c_Set c "Access-Control-Allow-Headers" h)
               else c_Set c "Access-Control-Allow-Headers" (AllowHeaders cfg) in
      c_SendStatus c StatusNoContent w.

(** [limiter.Config], the fields [main.go] sets. *)
Record limiter_Config := {
  Max : Z;
  Expiration : N;                               (* in seconds *)
  KeyGenerator : Ctx -> string;
  LimitReached : Ctx -> World -> Result;
}.

(** Modelled from the spec: the handler built by [limiter.New] (fiber's
    limiter middleware, whose code is not part of [main.go]).  Per key it
    keeps a hit count and the end of the current fixed window; a request
    arriving when no window is open, or at or after the end of the window,
    opens a window of [Expiration] seconds with a count of zero.  The count
    is incremented, and once it exceeds [Max] the request is answered by
    [LimitReached] (with [Retry-After]) without continuing the stack;
    otherwise the stack continues and the [X-RateLimit-*] headers are
    added.  [now] stands for the limiter's one-second timestamp. *)
Definition limiter_New (cfg : limiter_Config) : Handler :=
  fun c w nxt =>
    let key := KeyGenerator cfg c in
    let ts := now w in
    let e := default {| currHits := 0; exp := 0 |} (hits w !! key) in
    let e := if (exp e =? 0)%N
             then {| currHits := currHits e; exp := ts + Expiration cfg |}
             else if (exp e <=? ts)%N
             then {| currHits := 0; exp := ts + Expiration cfg |}
             else e in
    let e := {| currHits := currHits e + 1; exp := exp e |} in
    let resetInSec := (exp e - ts)%N in
    let remaining := Max cfg - currHits e in
    let w := set_hits (<[key := e]> (hits w)) w in
    if remaining <? 0
    then LimitReached cfg (c_Set c "Retry-After" (pretty resetInSec)) w
    else
      let '(c, w, err) := nxt c w in
      let c := c_Set c "X-RateLimit-Limit" (pretty (Max cfg)) in
      let c := c_Set c "X-RateLimit-Remaining" (pretty remaining) in
      let c := c_Set c "X-RateLimit-Reset" (pretty resetInSec) in
      (c, w, err).

(* ===================================================================== *)
(** ** fiber/v2: start-up                                                 *)
(* ===================================================================== *)

(** What [app.Listen] prints before it serves. *)
Inductive Diagnostic :=
  | StartupMessage (name addr : string)
  | RoutesMessage (table : list (list Method * string)).

(** [app.Listen(addr)], its output: the banner unless disabled, and the
    route table when [EnablePrintRoutes] is set. *)
Definition Listen (app : App) (addr : string) : list Diagnostic :=
  (if DisableStartupMessage (config app) then []
   else [StartupMessage (AppName (config app)) addr]) ++
  (if EnablePrintRoutes (config app)
   then [RoutesMessage (map (fun r => (rt_methods r, rt_path r)) (stack app))]
   else []).

(* ===================================================================== *)
(** ** main.go                                                            *)
(* ===================================================================== *)

Definition version : string := "dev".
Definition appName : string := "Knowledge Garden CLI - Web Dashboard".

Definition customErrorHandler (c : Ctx) (err : error) (w : World) : Result :=
  let code :=
    match err with
    | FiberError Code _ => Code
    | OtherError _ => StatusInternalServerError
    end in
  let c := c_Set c "Content-Type" "application/json" in
  if code =? StatusNotFound then
    let c := c_Status c StatusNotFound in
    c_SendString c "404 - Page Not Found" w
  else
    let c := c_Status c code in
    c_JSON c {[ "error" := JString (Error err) ]} w.

Definition securityHeaders : Handler :=
  fun c w nxt =>
    let c := c_Set c "X-Content-Type-Options" "nosniff" in
    let c := c_Set c "X-Frame-Options" "DENY" in
    let c := c_Set c "X-XSS-Protection" "1; mode=block" in
    let c := c_Set c "Referrer-Policy" "strict-origin-when-cross-origin" in
    let c := c_Set c "Permissions-Policy" "default-src 'self'" in
    let c := c_Set c "X-Application-Version" version in
    nxt c w.

(** The [limiter.Config] literal of [setupFiber]. *)
Definition limiterConfig : limiter_Config :=
  {| Max := 120;
     Expiration := 1 * 60;
     KeyGenerator := fun c => c_IP c;
     LimitReached := fun c w =>
       c_JSON (c_Status c StatusTooManyRequests)
              {[ "error" := JString "Rate limit exceeded" ]} w |}.

Definition corsConfig : cors_Config :=
  {| AllowMethods := "GET,POST,OPTIONS";
     AllowHeaders := "Origin,Content-Type,Accept,Authorization" |}.

Definition setupFiber (env : gmap string string) : App :=
  let app := New {| AppName := appName;
                    DisableStartupMessage := false;
                    EnablePrintRoutes :=
                      String.eqb (getEnv env "ENV" "development") "development";
                    ErrorHandler := customErrorHandler |} in
  let app := Use app (logger_New (ErrorHandler (config app))) in
  let app := Use app recover_New in
  let app := Use app compress_New in
  let app := Use app (cors_New corsConfig) in
  let app := Use app securityHeaders in
  let app := Use app (limiter_New limiterConfig) in
  app.

(** The handler of [GET /health]. *)
Definition healthHandler : Handler :=
  fun c w _ =>
    c_JSON c {[ "status" := JString "healthy";
                "version" := JString version;
                "app" := JString appName ]} w.

(** The four page handlers of [setupRoutes] are the same closure up to the
    name of the file they read. *)
Definition pageHandler (templatesPath : FilePath) (file : string) : Handler :=
  fun c w _ =>
    let c := c_Set c "Content-Type" "text/html; charset=utf-8" in
    let '(r, w) := os_ReadFile w (filepath_Join templatesPath file) in
    match r with
    | inr _ => c_SendString (c_Status c StatusNotFound) "Template not found" w
    | inl content => c_SendString c content w
    end.

(** The last handler of [setupRoutes], registered with [app.Use]. *)
Definition notFoundHandler (templatesPath : FilePath) : Handler :=
  fun c w _ =>
    let c := c_Set c "Content-Type" "text/html; charset=utf-8" in
    let '(r, w) := os_ReadFile w (filepath_Join templatesPath "404.html") in
    match r with
    | inr _ => c_SendString (c_Status c StatusNotFound) "404 - Page Not Found" w
    | inl content =>
        let c := c_Status c StatusNotFound in
        c_SendString c content w
    end.

Definition setupRoutes (app : App) (wd : FilePath) : App :=
  let staticPath := filepath_Join wd "static" in
  let templatesPath := filepath_Join wd "templates" in
  let app := Get app "/health" healthHandler in
  let app := Static app "/static" staticPath in
  let app := Get app "/" (pageHandler templatesPath "index.html") in
  let app := Get app "/tutorial" (pageHandler templatesPath "tutorial.html") in
  let app := Get app "/tutorial/self-hosting"
                 (pageHandler templatesPath "tutorial-self-hosting.html") in
  let app := Get app "/tutorial/cli-reference"
                 (pageHandler templatesPath "tutorial-cli-reference.html") in
  let app := Use app (notFoundHandler templatesPath) in
  app.

(** A started server: the application, the address it listens on and what
    start-up printed. *)
Record Server := {
  srv_app : App;
  srv_addr : string;
  srv_output : list Diagnostic;
}.

(** [main]: [getwd] is the result of [os.Getwd()], [None] when it fails, in
    which case [log.Fatalf] ends the process.  The signal handler installed
    by [setupGracefulShutdown] and a failure of [app.Listen] to bind the
    port are not part of the model. *)
Definition main (env : gmap string string) (getwd : option FilePath)
  : option Server :=
  match getwd with
  | None => None
  | Some wd =>
      let app := setupFiber env in
      let app := setupRoutes app wd in
      let port := getEnv env "PORT" "3000" in
      Some {| srv_app := app; srv_addr := ":" +:+ port;
              srv_output := Listen app (":" +:+ port) |}
  end.

(** The HTML routes of [setupRoutes]: request path and template file. *)
Definition htmlRoutes : list (string * string) :=
  [("/", "index.html");
   ("/tutorial", "tutorial.html");
   ("/tutorial/self-hosting", "tutorial-self-hosting.html");
   ("/tutorial/cli-reference", "tutorial-cli-reference.html")].

(** The application with the route table alone, and the deployed one. *)
Definition routesApp (cfg : Config) (wd : FilePath) : App :=
  setupRoutes (New cfg) wd.

Definition mainApp (env : gmap string string) (wd : FilePath) : App :=
  setupRoutes (setupFiber env) wd.

(* ===================================================================== *)
(** ** Vocabulary of the statements                                       *)
(* ===================================================================== *)

Definition is_get_or_head (m : Method) : bool :=
  match m with
  | MethodGet | MethodHead => true
  | _ => false
  end.

(** The file a page handler reads: [<wd>/templates/<name>]. *)
Definition templateFile (wd : FilePath) (name : string) : FilePath :=
  filepath_Join (filepath_Join wd "templates") name.

(** The paths of the routes registered with [app.Get]. *)
Definition routePaths : list string := "/health" :: map fst htmlRoutes.

(** The body of a not-found answer of the catch-all: the custom document
    when it can be read, the fallback text otherwise. *)
Definition notFoundBody (w : World) (wd : FilePath) : Body :=
  match files w !! templateFile wd "404.html" with
  | Some (Regular content) => Raw content
  | _ => Raw "404 - Page Not Found"
  end.

(** The headers [securityHeaders] sets, in the order of its [c.Set] calls. *)
Definition securityHeaderList : list (string * string) :=
  [("X-Content-Type-Options", "nosniff");
   ("X-Frame-Options", "DENY");
   ("X-XSS-Protection", "1; mode=block");
   ("Referrer-Policy", "strict-origin-when-cross-origin");
   ("Permissions-Policy", "default-src 'self'");
   ("X-Application-Version", version)].

(** A response carries every header of [securityHeaderList]. *)
Definition secured (r : Response) : Prop :=
  list_to_map securityHeaderList ⊆ headers r.

(** The limiter lets the next request of [key] through: the count the
    request would reach, in the window it falls in, does not exceed [Max]. *)
Definition limiter_admits (cfg : limiter_Config) (w : World) (key : string)
  : bool :=
  match hits w !! key with
  | None => 0 <? Max cfg
  | Some e =>
      if (exp e =? 0)%N then currHits e <? Max cfg
      else if (exp e <=? now w)%N then 0 <? Max cfg
      else currHits e <? Max cfg
  end.


(** The answer of [LimitReached] in [setupFiber]. *)
Definition rateLimitBody : Body :=
  JSONOf {[ "error" := JString "Rate limit exceeded" ]}.


(** Requests served one after the other, each at its time of arrival. *)
Definition serve (app : App) (w : World) (t : N) (r : Request)
  : World * Response :=
  handler app (set_now t w) r.

Fixpoint serve_all (app : App) (w : World) (rs : list (N * Request))
  : World * list Response :=
  match rs with
  | [] => (w, [])
  | (t, r) :: rs' =>
      let '(w1, resp) := serve app w t r in
      let '(w2, resps) := serve_all app w1 rs' in
      (w2, resp :: resps)
  end.



(** The content type of the page handlers, alone in a header map. *)
Definition htmlHeaders : gmap string string :=
  {[ "Content-Type" := "text/html; charset=utf-8" ]}.

Definition pageAnswer (w : World) (wd : FilePath) (file : string) : Response :=
  match files w !! templateFile wd file with
  | Some (Regular content) =>
      {| status := StatusOK; headers := htmlHeaders; body := Raw content |}
  | _ =>
      {| status := StatusNotFound; headers := htmlHeaders;
         body := Raw "Template not found" |}
  end.

Definition notFoundAnswer (w : World) (wd : FilePath) : Response :=
  {| status := StatusNotFound; headers := htmlHeaders;
     body := notFoundBody w wd |}.

Definition static_serves (w : World) (wd : FilePath) (r : Request) : bool :=
  is_get_or_head (r_method r) &&
  String.prefix "/static" (detectionPath (r_path r)) &&
  bool_decide (is_Some (static_fs w (filepath_Join wd "static") (r_path r))).

(** The answer of the static mount for a file the file handler found. *)
Definition staticAnswer (f : StaticFile) : Response :=
  {| status := sf_status f;
     headers := {[ "Content-Type" := sf_contentType f ]};
     body := Raw (sf_body f) |}.

Definition healthAnswer : Response :=
  {| status := StatusOK;
     headers := {[ "Content-Type" := "application/json" ]};
     body := JSONOf {[ "status" := JString "healthy";
                       "version" := JString version;
                       "app" := JString appName ]} |}.

(** The stack [setupRoutes] registers, on top of whatever came before. *)
Definition routeStack (wd : FilePath) : list Route :=
  [ getRoute "/health" healthHandler;
    staticRoute "/static" (filepath_Join wd "static");
    getRoute "/" (pageHandler (filepath_Join wd "templates") "index.html");
    getRoute "/tutorial"
      (pageHandler (filepath_Join wd "templates") "tutorial.html");
    getRoute "/tutorial/self-hosting"
      (pageHandler (filepath_Join wd "templates") "tutorial-self-hosting.html");
    getRoute "/tutorial/cli-reference"
      (pageHandler (filepath_Join wd "templates") "tutorial-cli-reference.html");
    useRoute (notFoundHandler (filepath_Join wd "templates")) ].

(** What each kind of route makes of the response [r0] it finds. *)
Definition healthResponse (r0 : Response) : Response :=
  {| status := status r0;
     headers := <["Content-Type" := "application/json"]> (headers r0);
     body := JSONOf {[ "status" := JString "healthy";
                       "version" := JString version;
                       "app" := JString appName ]} |}.

Definition staticResponse (r0 : Response) (f : StaticFile) : Response :=
  {| status := sf_status f;
     headers := <["Content-Type" := sf_contentType f]> (headers r0);
     body := Raw (sf_body f) |}.

Definition pageResponse (r0 : Response) (w : World) (wd : FilePath)
    (file : string) : Response :=
  match files w !! templateFile wd file with
  | Some (Regular content) =>
      {| status := status r0;
         headers := <["Content-Type" := "text/html; charset=utf-8"]> (headers r0);
         body := Raw content |}
  | _ =>
      {| status := StatusNotFound;
         headers := <["Content-Type" := "text/html; charset=utf-8"]> (headers r0);
         body := Raw "Template not found" |}
  end.

Definition notFoundResponse (r0 : Response) (w : World) (wd : FilePath)
  : Response :=
  {| status := StatusNotFound;
     headers := <["Content-Type" := "text/html; charset=utf-8"]> (headers r0);
     body := notFoundBody w wd |}.

(** The answer of the route table to a request, given the response [r0]
    the request arrives with: the first route that applies, in the order of
    [setupRoutes], decides. *)
Definition routeResponse (wd : FilePath) (w : World) (req : Request)
    (r0 : Response) : Response :=
  let dp := detectionPath (r_path req) in
  if is_get_or_head (r_method req) then
    if String.eqb dp "/health" then healthResponse r0
    else
      match (if String.prefix "/static" dp
             then static_fs w (filepath_Join wd "static") (r_path req)
             else None) with
      | Some f => staticResponse r0 f
      | None =>
          match find (fun pf => String.eqb dp (fst pf)) htmlRoutes with
          | Some pf => pageResponse r0 w wd (snd pf)
          | None => notFoundResponse r0 w wd
          end
      end
  else notFoundResponse r0 w wd.

(** The limiter's entry for [key] once one more request is counted. *)
Definition limiter_entry (cfg : limiter_Config) (w : World) (key : string)
  : Entry :=
  let e := default {| currHits := 0; exp := 0 |} (hits w !! key) in
  let e := if (exp e =? 0)%N
           then {| currHits := currHits e; exp := now w + Expiration cfg |}
           else if (exp e <=? now w)%N
           then {| currHits := 0; exp := now w + Expiration cfg |}
           else e in
  {| currHits := currHits e + 1; exp := exp e |}.

(** The response of a request the limiter turned away, and the headers it
    adds to one it let through. *)
Definition rateLimited (r0 : Response) (e : Entry) (t : N) : Response :=
  {| status := StatusTooManyRequests;
     headers := <["Content-Type" := "application/json"]>
                  (<["Retry-After" := pretty (exp e - t)%N]> (headers r0));
     body := rateLimitBody |}.

Definition withRateLimitHeaders (cfg : limiter_Config) (r : Response)
    (e : Entry) (t : N) : Response :=
  {| status := status r;
     headers := <["X-RateLimit-Reset" := pretty (exp e - t)%N]>
                  (<["X-RateLimit-Remaining" := pretty (Max cfg - currHits e)]>
                     (<["X-RateLimit-Limit" := pretty (Max cfg)]> (headers r)));
     body := body r |}.

(* ===================================================================== *)
(** ** Concrete inputs                                                    *)
(* ===================================================================== *)

Definition demoWd : FilePath := ["srv"; "web"].

(** A deployment with a landing page and a not-found page, an unreadable
    tutorial page, no other template and no static asset. *)
Definition demoWorld : World :=
  {| now := 1000;
     files := {[ templateFile demoWd "index.html" := Regular "<html>OK</html>";
                 templateFile demoWd "404.html" := Regular "<html>Lost</html>";
                 templateFile demoWd "tutorial.html" := Unreadable ]};
     static_fs := fun _ _ => None;
     hits := ∅; reads := []; logs := [] |}.

Definition demoRequest (m : Method) (p : string) : Request :=
  {| r_method := m; r_path := p; r_query := ""; r_headers := ∅;
     r_ip := "203.0.113.7" |}.

(** A CORS preflight, as a browser sends it before a cross-origin request. *)
Definition preflightRequest : Request :=
  {| r_method := MethodOptions; r_path := "/"; r_query := "";
     r_headers := {[ "Origin" := "https://example.org";
                     "Access-Control-Request-Method" := "GET" ]};
     r_ip := "203.0.113.7" |}.

Definition demoConfig : Config := config (setupFiber ∅).

(** The demo deployment after the client has used up its 120 requests in
    the window that ends at second 1030. *)
Definition exhaustedWorld : World :=
  set_hits {[ "203.0.113.7" := {| currHits := 120; exp := 1030 |} ]} demoWorld.

(* ===================================================================== *)
(** ** Vocabulary of the further statements                               *)
(* ===================================================================== *)

(** The files the handlers of [setupRoutes] name in [os.ReadFile]. *)
Definition templateNames : list string := map snd htmlRoutes ++ ["404.html"].

(** The template the route table reads for a request, if it reads one: the
    health route and a static asset that is found read none. *)
Definition routeRead (wd : FilePath) (w : World) (req : Request)
  : option string :=
  let dp := detectionPath (r_path req) in
  if is_get_or_head (r_method req) then
    if String.eqb dp "/health" then None
    else
      match (if String.prefix "/static" dp
             then static_fs w (filepath_Join wd "static") (r_path req)
             else None) with
      | Some _ => None
      | None =>
          match find (fun pf => String.eqb dp (fst pf)) htmlRoutes with
          | Some pf => Some (snd pf)
          | None => Some "404.html"
          end
      end
  else Some "404.html".

Definition after_read (wd : FilePath) (w : World) (name : option string)
  : World :=
  match name with
  | Some n => add_read (templateFile wd n) w
  | None => w
  end.

(** The line the logger writes for a request answered with [code]. *)
Definition requestLog (req : Request) (code : Z) : LogLine :=
  {| log_method := Method_name (r_method req);
     log_path := r_path req;
     log_status := code |}.

(** The answer of the CORS middleware to a preflight, under [corsConfig]. *)
Definition preflightAnswer : Response :=
  {| status := StatusNoContent;
     headers :=
       {[ "Vary" :=
            "Access-Control-Request-Method, Access-Control-Request-Headers, Origin";
          "Access-Control-Allow-Origin" := "*";
          "Access-Control-Allow-Methods" := "GET,POST,OPTIONS";
          "Access-Control-Allow-Headers" :=
            "Origin,Content-Type,Accept,Authorization" ]};
     body := Raw "No Content" |}.

(** The stack of the deployed application below the logger. *)
Definition belowLogger (wd : FilePath) : list Route :=
  [ useRoute recover_New;
    useRoute compress_New;
    useRoute (cors_New corsConfig);
    useRoute securityHeaders;
    useRoute (limiter_New limiterConfig) ] ++ routeStack wd.

(** The world after the limiter has counted a request. *)
Definition counted (w : World) (req : Request) : World :=
  set_hits (<[r_ip req := limiter_entry limiterConfig w (r_ip req)]> (hits w)) w.

(** Every entry the limiter holds has a window end and a count of at least
    one. *)
Definition store_ok (w : World) : Prop :=
  map_Forall (fun _ e => exp e <> 0%N /\ 1 <= currHits e) (hits w).

(** A handler that uses its [c.Next()] only through what it returns. *)
Definition extensional (h : Handler) : Prop :=
  forall c w (n n' : Ctx -> World -> Result),
    (forall c w, n c w = n' c w) -> h c w n = h c w n'.

(** Routes registered on an application after it has been set up. *)
Definition registerAfter (app : App) (later : list Route) : App :=
  fold_left addRoute later app.

(* ===================================================================== *)
(** ** The route stack: how a request finds its handler                   *)
(* ===================================================================== *)

Lemma String_eqb_sym (s t : string) : String.eqb s t = String.eqb t s.
Proof.
  destruct (String.eqb_spec s t) as [->|Hne].
  - symmetry. apply String.eqb_refl.
  - symmetry. apply String.eqb_neq. congruence.
Qed.

Lemma useRoute_applies (h : Handler) (c : Ctx) :
  route_applies (useRoute h) c = true.
Proof.
  unfold route_applies, serves_method, route_match; simpl.
  destruct (r_method (request c)); simpl;
    destruct (String.eqb _ "/"); reflexivity.
Qed.

Lemma getRoute_applies (p : string) (h : Handler) (c : Ctx) :
  route_applies (getRoute p h) c =
  is_get_or_head (r_method (request c)) &&
  String.eqb (detectionPath p) (detectionPath (r_path (request c))).
Proof.
  unfold route_applies, serves_method, route_match.
  change (rt_root (getRoute p h)) with (String.eqb (detectionPath p) "/").
  change (rt_use (getRoute p h)) with false.
  change (rt_path (getRoute p h)) with (detectionPath p).
  change (rt_methods (getRoute p h)) with [MethodHead; MethodGet].
  f_equal.
  - destruct (r_method (request c)); reflexivity.
  - destruct (String.eqb_spec (detectionPath p) "/") as [->|_];
      cbn [andb]; [|reflexivity].
    rewrite (String_eqb_sym "/").
    destruct (String.eqb (detectionPath (r_path (request c))) "/"); reflexivity.
Qed.

Lemma staticRoute_applies (root : FilePath) (c : Ctx) :
  route_applies (staticRoute "/static" root) c =
  is_get_or_head (r_method (request c)) &&
  String.prefix "/static" (detectionPath (r_path (request c))).
Proof.
  unfold route_applies, serves_method, route_match.
  change (rt_root (staticRoute "/static" root)) with false.
  change (rt_use (staticRoute "/static" root)) with true.
  change (rt_path (staticRoute "/static" root)) with "/static".
  f_equal. destruct (r_method (request c)); reflexivity.
Qed.

Lemma next_cons (all : list Route) (r : Route) (rest : list Route)
    (c : Ctx) (w : World) :
  next all (r :: rest) c w =
  if route_applies r c
  then rt_handler r
         (if negb (matched c) && negb (rt_use r) then set_matched c true else c)
         w (next all rest)
  else next all rest c w.
Proof. reflexivity. Qed.

Lemma routesApp_stack (cfg : Config) (wd : FilePath) :
  stack (routesApp cfg wd) = routeStack wd.
Proof. reflexivity. Qed.



Lemma request_mark (b : bool) (c : Ctx) :
  request (if b then set_matched c true else c) = request c.
Proof. destruct b; reflexivity. Qed.

Lemma response_mark (b : bool) (c : Ctx) :
  response (if b then set_matched c true else c) = response c.
Proof. destruct b; reflexivity. Qed.

(** Evaluates the test of the outermost route of the stack once the method
    and the detection path of the request are known. *)
Ltac eval_test :=
  lazymatch goal with
  | |- context [if ?b then _ else _] =>
      let v := eval vm_compute in b in
      change b with v; cbv iota
  end.

Ltac route_step Hm Hdp :=
  rewrite next_cons;
  first [rewrite getRoute_applies | rewrite staticRoute_applies
        | rewrite useRoute_applies];
  try rewrite Hm; try rewrite Hdp;
  eval_test;
  cbn [rt_handler getRoute useRoute staticRoute].

(** Skips a route of [app.Get] whose path is known to differ. *)
Ltac skip_get Hm :=
  rewrite next_cons, getRoute_applies;
  cbn [request reset_response with_response];
  rewrite ?request_mark;
  rewrite Hm;
  match goal with
  | |- context [String.eqb (detectionPath ?p) ?d] =>
      let v := eval vm_compute in (detectionPath p) in
      change (detectionPath p) with v;
      rewrite (String_eqb_sym v d)
  end;
  match goal with
  | H : String.eqb _ _ = false |- _ => rewrite H
  end;
  cbn [andb].

Lemma pageHandler_run (tp : FilePath) (file : string) (c : Ctx) (w : World)
    (nxt : Ctx -> World -> Result) :
  pageHandler tp file c w nxt =
  (match files w !! filepath_Join tp file with
   | Some (Regular content) =>
       set_body (c_Set c "Content-Type" "text/html; charset=utf-8") (Raw content)
   | _ =>
       set_body (c_Status (c_Set c "Content-Type" "text/html; charset=utf-8")
                          StatusNotFound) (Raw "Template not found")
   end, add_read (filepath_Join tp file) w, None).
Proof.
  unfold pageHandler, os_ReadFile, c_SendString.
  destruct (files w !! filepath_Join tp file) as [[content|]|]; reflexivity.
Qed.

Lemma notFoundHandler_run (tp : FilePath) (c : Ctx) (w : World)
    (nxt : Ctx -> World -> Result) :
  notFoundHandler tp c w nxt =
  (set_body (c_Status (c_Set c "Content-Type" "text/html; charset=utf-8")
                      StatusNotFound)
            (match files w !! filepath_Join tp "404.html" with
             | Some (Regular content) => Raw content
             | _ => Raw "404 - Page Not Found"
             end),
   add_read (filepath_Join tp "404.html") w, None).
Proof.
  unfold notFoundHandler, os_ReadFile, c_SendString.
  destruct (files w !! filepath_Join tp "404.html") as [[content|]|]; reflexivity.
Qed.

Lemma static_handler_miss (root : FilePath) (c : Ctx) (w : World)
    (nxt : Ctx -> World -> Result) :
  static_fs w root (r_path (request c)) = None ->
  static_handler root c w nxt = nxt (reset_response c) w.
Proof. intros H. unfold static_handler. rewrite H. reflexivity. Qed.

(** *** The four ways through the route table, from any context *)

Section RouteTable.

(** The stack of the whole application, which only the end of the stack
    consults, and the working directory. *)
Variables (all : list Route) (wd : FilePath).

Lemma health_next (c : Ctx) (w : World) :
  is_get_or_head (r_method (request c)) = true ->
  detectionPath (r_path (request c)) = "/health" ->
  exists c', next all (routeStack wd) c w = (c', w, None) /\
             request c' = request c /\
             response c' = healthResponse (response c).
Proof.
  intros Hm Hdp. unfold routeStack.
  route_step Hm Hdp.
  unfold healthHandler, c_JSON. eexists. split; [reflexivity|].
  cbn [request response c_Set set_body with_response status headers body].
  rewrite request_mark, response_mark. split; reflexivity.
Qed.

Lemma static_next (c : Ctx) (w : World) (f : StaticFile) :
  is_get_or_head (r_method (request c)) = true ->
  String.prefix "/static" (detectionPath (r_path (request c))) = true ->
  static_fs w (filepath_Join wd "static") (r_path (request c)) = Some f ->
  exists c', next all (routeStack wd) c w = (c', w, None) /\
             request c' = request c /\
             response c' = staticResponse (response c) f.
Proof.
  intros Hm Hp Hf. unfold routeStack.
  assert (H1 : String.eqb (detectionPath (r_path (request c))) "/health" = false).
  { apply String.eqb_neq. intros E. rewrite E in Hp. discriminate Hp. }
  skip_get Hm.
  rewrite next_cons, staticRoute_applies, Hm, Hp.
  cbn [andb rt_handler staticRoute].
  unfold static_handler. rewrite request_mark, Hf, response_mark.
  eexists. split; [reflexivity|].
  cbn [request response with_response]. rewrite request_mark.
  split; reflexivity.
Qed.

Lemma page_next (c : Ctx) (w : World) (path file : string) :
  In (path, file) htmlRoutes ->
  is_get_or_head (r_method (request c)) = true ->
  detectionPath (r_path (request c)) = path ->
  exists c', next all (routeStack wd) c w =
               (c', add_read (templateFile wd file) w, None) /\
             request c' = request c /\
             response c' = pageResponse (response c) w wd file.
Proof.
  intros Hin Hm Hdp. unfold routeStack, pageResponse, templateFile.
  cbn [htmlRoutes In] in Hin.
  destruct Hin as [H|[H|[H|[H|[]]]]]; injection H as <- <-;
    repeat (route_step Hm Hdp);
    rewrite pageHandler_run;
    (eexists; split; [reflexivity|]);
    destruct (files w !! _) as [[content|]|];
    cbn [request response c_Set c_Status set_body with_response status headers body];
    rewrite request_mark, response_mark; split; reflexivity.
Qed.

Lemma catch_all_next (c : Ctx) (w : World) :
  is_get_or_head (r_method (request c)) &&
    existsb (String.eqb (detectionPath (r_path (request c)))) routePaths = false ->
  static_serves w wd (request c) = false ->
  exists c', next all (routeStack wd) c w =
               (c', add_read (templateFile wd "404.html") w, None) /\
             request c' = request c /\
             response c' = notFoundResponse (response c) w wd.
Proof.
  intros Hroute Hstatic.
  unfold routeStack, notFoundResponse, notFoundBody, templateFile, static_serves in *.
  assert (Hlast : forall c0 : Ctx,
    request c0 = request c ->
    headers (response c0) = headers (response c) \/
    headers (response c0) = delete "Content-Type" (headers (response c)) ->
    exists c', next all [useRoute (notFoundHandler (filepath_Join wd "templates"))] c0 w =
                 (c', add_read (filepath_Join (filepath_Join wd "templates") "404.html") w, None) /\
               request c' = request c /\
               response c' =
                 {| status := StatusNotFound;
                    headers := <["Content-Type" := "text/html; charset=utf-8"]>
                                 (headers (response c));
                    body := match files w !! filepath_Join (filepath_Join wd "templates") "404.html" with
                            | Some (Regular content) => Raw content
                            | _ => Raw "404 - Page Not Found"
                            end |}).
  { intros c0 Hreq Hhd.
    rewrite next_cons, useRoute_applies. cbn [rt_handler useRoute].
    rewrite notFoundHandler_run. eexists. split; [reflexivity|].
    cbn [request response c_Set c_Status set_body with_response status headers body].
    rewrite request_mark, response_mark. split; [exact Hreq|].
    f_equal. destruct Hhd as [-> | ->]; [reflexivity | apply insert_delete_eq]. }
  destruct (is_get_or_head (r_method (request c))) eqn:Hm.
  - cbn [andb existsb routePaths map fst htmlRoutes] in Hroute, Hstatic.
    apply orb_false_elim in Hroute as [H1 Hroute].
    apply orb_false_elim in Hroute as [H2 Hroute].
    apply orb_false_elim in Hroute as [H3 Hroute].
    apply orb_false_elim in Hroute as [H4 Hroute].
    apply orb_false_elim in Hroute as [H5 _].
    skip_get Hm.
    rewrite next_cons, staticRoute_applies, Hm. cbn [andb].
    destruct (String.prefix "/static" (detectionPath (r_path (request c)))) eqn:Hp.
    + cbn [andb] in Hstatic. apply bool_decide_eq_false in Hstatic.
      cbn [rt_handler staticRoute].
      rewrite static_handler_miss
        by (rewrite request_mark;
            destruct (static_fs w _ _); [exfalso; apply Hstatic; eauto | reflexivity]).
      cbn [request reset_response with_response]. rewrite ?request_mark.
      do 4 (skip_get Hm; rewrite ?request_mark).
      apply Hlast.
      * cbn [request reset_response with_response]. apply request_mark.
      * right. cbn [response reset_response with_response headers].
        rewrite response_mark. reflexivity.
    + do 4 skip_get Hm. apply Hlast; auto.
  - repeat (rewrite next_cons;
            first [rewrite getRoute_applies | rewrite staticRoute_applies];
            rewrite Hm; cbn [andb]).
    apply Hlast; auto.
Qed.

End RouteTable.

(** *** The same, for the application that has the route table alone *)

Lemma handler_routes (cfg : Config) (wd : FilePath) (w w' : World)
    (req : Request) (c' : Ctx) :
  next (routeStack wd) (routeStack wd) (AcquireCtx req) w = (c', w', None) ->
  handler (routesApp cfg wd) w req = (w', response c').
Proof. unfold handler. rewrite routesApp_stack. intros ->. reflexivity. Qed.

Lemma health_route (cfg : Config) (wd : FilePath) (w : World) (req : Request) :
  is_get_or_head (r_method req) = true ->
  detectionPath (r_path req) = "/health" ->
  handler (routesApp cfg wd) w req = (w, healthAnswer).
Proof.
  intros Hm Hdp.
  destruct (health_next (routeStack wd) wd (AcquireCtx req) w Hm Hdp)
    as (c' & E & _ & R).
  rewrite (handler_routes _ _ _ _ _ _ E), R. reflexivity.
Qed.

Lemma static_route (cfg : Config) (wd : FilePath) (w : World) (req : Request)
    (f : StaticFile) :
  is_get_or_head (r_method req) = true ->
  String.prefix "/static" (detectionPath (r_path req)) = true ->
  static_fs w (filepath_Join wd "static") (r_path req) = Some f ->
  handler (routesApp cfg wd) w req = (w, staticAnswer f).
Proof.
  intros Hm Hp Hf.
  destruct (static_next (routeStack wd) wd (AcquireCtx req) w f Hm Hp Hf)
    as (c' & E & _ & R).
  rewrite (handler_routes _ _ _ _ _ _ E), R. reflexivity.
Qed.

Lemma page_route (cfg : Config) (wd : FilePath) (w : World) (req : Request)
    (path file : string) :
  In (path, file) htmlRoutes ->
  is_get_or_head (r_method req) = true ->
  detectionPath (r_path req) = path ->
  handler (routesApp cfg wd) w req =
  (add_read (templateFile wd file) w, pageAnswer w wd file).
Proof.
  intros Hin Hm Hdp.
  destruct (page_next (routeStack wd) wd (AcquireCtx req) w path file Hin Hm Hdp)
    as (c' & E & _ & R).
  rewrite (handler_routes _ _ _ _ _ _ E), R.
  unfold pageResponse, pageAnswer.
  destruct (files w !! _) as [[content|]|]; reflexivity.
Qed.

Lemma catch_all_route (cfg : Config) (wd : FilePath) (w : World) (req : Request) :
  is_get_or_head (r_method req) &&
    existsb (String.eqb (detectionPath (r_path req))) routePaths = false ->
  static_serves w wd req = false ->
  handler (routesApp cfg wd) w req =
  (add_read (templateFile wd "404.html") w, notFoundAnswer w wd).
Proof.
  intros Hroute Hstatic.
  destruct (catch_all_next (routeStack wd) wd (AcquireCtx req) w Hroute Hstatic)
    as (c' & E & _ & R).
  rewrite (handler_routes _ _ _ _ _ _ E), R. reflexivity.
Qed.


Lemma outside_static_not_served (w : World) (wd : FilePath) (req : Request) :
  String.prefix "/static" (detectionPath (r_path req)) = false ->
  static_serves w wd req = false.
Proof.
  intros H. unfold static_serves. rewrite H.
  destruct (is_get_or_head (r_method req)); reflexivity.
Qed.

Lemma templateFile_inj (wd : FilePath) (a b : string) :
  templateFile wd a = templateFile wd b -> a = b.
Proof.
  unfold templateFile, filepath_Join. intros H.
  apply app_inj_tail in H as [_ H]. exact H.
Qed.

(* ===================================================================== *)
(** ** The whole middleware chain                                         *)
(* ===================================================================== *)

Lemma find_page_Some (d : string) (pf : string * string) :
  find (fun pf => String.eqb d (fst pf)) htmlRoutes = Some pf ->
  In (d, snd pf) htmlRoutes.
Proof.
  intros H. apply find_some in H as [Hin Heq].
  apply String.eqb_eq in Heq. subst d. destruct pf. exact Hin.
Qed.

Lemma find_page_None (d : string) :
  String.eqb d "/health" = false ->
  find (fun pf => String.eqb d (fst pf)) htmlRoutes = None ->
  existsb (String.eqb d) routePaths = false.
Proof.
  intros Hh Hf. cbn [routePaths existsb]. rewrite Hh. cbn [orb].
  destruct (existsb (String.eqb d) (map fst htmlRoutes)) eqn:E; [|reflexivity].
  apply existsb_exists in E as (p & Hin & Heq).
  apply in_map_iff in Hin as (pf & <- & Hin).
  pose proof (find_none _ _ Hf pf Hin) as Hn. cbn beta in Hn. congruence.
Qed.


Lemma limiter_admits_spec (cfg : limiter_Config) (w : World) (key : string) :
  limiter_admits cfg w key =
  negb (Max cfg - currHits (limiter_entry cfg w key) <? 0).
Proof.
  assert (Hlt : forall h, negb (Max cfg - (h + 1) <? 0) = (h <? Max cfg)).
  { intros h. destruct (Z.ltb_spec (Max cfg - (h + 1)) 0);
      destruct (Z.ltb_spec h (Max cfg)); cbn [negb]; try reflexivity; lia. }
  unfold limiter_admits, limiter_entry.
  destruct (hits w !! key) as [e|]; cbn [default from_option id exp currHits].
  - destruct (exp e =? 0)%N; [|destruct (exp e <=? now w)%N];
      cbn [currHits]; rewrite Hlt; reflexivity.
  - change (0 =? 0)%N with true. cbv iota. cbn [currHits].
    rewrite Hlt. reflexivity.
Qed.

Lemma limiter_run (c : Ctx) (w : World) (nxt : Ctx -> World -> Result) :
  limiter_New limiterConfig c w nxt =
  let e := limiter_entry limiterConfig w (r_ip (request c)) in
  let w1 := set_hits (<[r_ip (request c) := e]> (hits w)) w in
  if limiter_admits limiterConfig w (r_ip (request c))
  then
    let '(c', w', err) := nxt c w1 in
    (c_Set (c_Set (c_Set c' "X-RateLimit-Limit" (pretty (Max limiterConfig)))
                  "X-RateLimit-Remaining"
                  (pretty (Max limiterConfig - currHits e)))
           "X-RateLimit-Reset" (pretty (exp e - now w)%N), w', err)
  else
    c_JSON (c_Status (c_Set c "Retry-After" (pretty (exp e - now w)%N))
                     StatusTooManyRequests)
           {[ "error" := JString "Rate limit exceeded" ]} w1.
Proof.
  rewrite limiter_admits_spec. unfold limiter_New.
  change (KeyGenerator limiterConfig c) with (r_ip (request c)).
  change (LimitReached limiterConfig) with
    (fun (c : Ctx) (w : World) =>
       c_JSON (c_Status c StatusTooManyRequests)
              {[ "error" := JString "Rate limit exceeded" ]} w).
  fold (limiter_entry limiterConfig w (r_ip (request c))).
  cbv zeta.
  destruct (Max limiterConfig -
            currHits (limiter_entry limiterConfig w (r_ip (request c))) <? 0);
    reflexivity.
Qed.

(** [secured] survives every header a later handler writes. *)
Lemma secured_insert (hs : gmap string string) (k v : string) :
  (list_to_map securityHeaderList : gmap string string) !! k = None ->
  list_to_map securityHeaderList ⊆ hs ->
  list_to_map securityHeaderList ⊆ <[k := v]> hs.
Proof. intros Hk Hs. apply insert_subseteq_r; assumption. Qed.

Lemma secured_lookup (r : Response) (k v : string) :
  secured r -> In (k, v) securityHeaderList -> headers r !! k = Some v.
Proof.
  intros Hs Hin. unfold secured in Hs.
  apply (lookup_weaken (list_to_map securityHeaderList)); [|exact Hs].
  cbn [securityHeaderList In] in Hin.
  destruct Hin as [H|[H|[H|[H|[H|[H|[]]]]]]]; injection H as <- <-; reflexivity.
Qed.

Lemma securityHeaders_run (c : Ctx) (w : World) (nxt : Ctx -> World -> Result) :
  exists c5, securityHeaders c w nxt = nxt c5 w /\
             request c5 = request c /\
             status (response c5) = status (response c) /\
             body (response c5) = body (response c) /\
             secured (response c5).
Proof.
  unfold securityHeaders. eexists. split; [reflexivity|].
  repeat split.
  unfold secured. cbn [response c_Set with_response headers].
  apply map_subseteq_spec. intros k v Hk.
  cbn [securityHeaderList list_to_map foldr uncurry fst snd] in Hk.
  repeat (rewrite lookup_insert in Hk; case_decide;
          [ subst k; injection Hk as <-;
            repeat (first [ apply lookup_insert_eq
                          | rewrite lookup_insert_ne by discriminate ])
          | ]).
  rewrite lookup_empty in Hk. discriminate Hk.
Qed.

Lemma cors_pass (c : Ctx) (w : World) (nxt : Ctx -> World -> Result) :
  is_preflight (request c) = false ->
  exists c4, cors_New corsConfig c w nxt = nxt c4 w /\
             request c4 = request c /\
             status (response c4) = status (response c) /\
             body (response c4) = body (response c).
Proof.
  unfold is_preflight, cors_New, c_Get. intros Hpf.
  destruct (String.eqb (ToLower (default "" (r_headers (request c) !! "Origin"))) "").
  { exists c. repeat split. }
  destruct (Method_eqb (r_method (request c)) MethodOptions).
  - cbn [negb andb] in Hpf. apply negb_false_iff in Hpf. rewrite Hpf.
    exists c. repeat split.
  - cbn [negb andb]. eexists. split; [reflexivity|]. repeat split.
Qed.

Lemma secured_routeResponse (wd : FilePath) (w : World) (req : Request)
    (r0 : Response) :
  secured r0 -> secured (routeResponse wd w req r0).
Proof.
  intros Hs. unfold routeResponse, secured.
  repeat match goal with
         | |- context [if ?b then _ else _] => destruct b
         | |- context [match ?x with Some _ => _ | None => _ end] => destruct x
         end;
    unfold healthResponse, staticResponse, pageResponse, notFoundResponse;
    repeat match goal with
           | |- context [match ?x with Some _ => _ | None => _ end] => destruct x
           | |- context [match ?x with Regular _ => _ | Unreadable => _ end] => destruct x
           end;
    cbn [headers]; apply secured_insert; solve [reflexivity | exact Hs].
Qed.

Lemma secured_withRateLimitHeaders (r : Response) (e : Entry) (t : N) :
  secured r -> secured (withRateLimitHeaders limiterConfig r e t).
Proof.
  intros Hs. unfold withRateLimitHeaders, secured. cbn [headers].
  repeat (apply secured_insert; [reflexivity|]). exact Hs.
Qed.

Lemma secured_rateLimited (r0 : Response) (e : Entry) (t : N) :
  secured r0 -> secured (rateLimited r0 e t).
Proof.
  intros Hs. unfold rateLimited, secured. cbn [headers].
  repeat (apply secured_insert; [reflexivity|]). exact Hs.
Qed.

Create HintDb secured.
#[local] Hint Resolve secured_routeResponse secured_withRateLimitHeaders
  secured_rateLimited : secured.








Lemma get_is_no_preflight (req : Request) :
  r_method req = MethodGet -> is_preflight req = false.
Proof.
  intros Hm. unfold is_preflight. rewrite Hm. cbn [Method_eqb].
  rewrite andb_false_r. reflexivity.
Qed.

(* ===================================================================== *)
(** ** The claims about the route table                                   *)
(* ===================================================================== *)







Lemma in_routePaths_cases (d : string) :
  existsb (String.eqb d) routePaths = true ->
  d = "/health" \/ exists file, In (d, file) htmlRoutes.
Proof.
  intros H. apply existsb_exists in H as (p & Hin & Heq).
  apply String.eqb_eq in Heq. subst p.
  cbn [routePaths map fst htmlRoutes In] in Hin.
  destruct Hin as [<-|[<-|[<-|[<-|[<-|[]]]]]];
    [left; reflexivity | right ..]; eexists; cbn [htmlRoutes In]; eauto 6.
Qed.

Lemma htmlRoutes_files_differ (p p' file file' : string) :
  In (p, file) htmlRoutes -> In (p', file') htmlRoutes -> p' <> p ->
  file' <> file /\ file <> "404.html".
Proof.
  cbn [htmlRoutes In]. intros H H' Hne.
  destruct H as [H|[H|[H|[H|[]]]]]; injection H as <- <-;
    destruct H' as [H'|[H'|[H'|[H'|[]]]]]; injection H' as <- <-;
    split; congruence.
Qed.

(** C6. When the file behind an HTML route cannot be read, because it is
    missing or because reading is refused, the handler answers 404 with the
    body [Template not found] after a single read, and returns no error to
    the framework.  The failure stays with that route: whatever happens to
    that one file, the answer to a request for any other path is the
    same. *)
Theorem page_read_failure_is_local
    (cfg : Config) (wd : FilePath) (w : World) (req req' : Request)
    (path file : string) (fs' : gmap (list string) File) :
  In (path, file) htmlRoutes ->
  r_method req = MethodGet -> detectionPath (r_path req) = path ->
  (files w !! templateFile wd file = None \/
   files w !! templateFile wd file = Some Unreadable) ->
  detectionPath (r_path req') <> path ->
  (forall p, p <> templateFile wd file -> fs' !! p = files w !! p) ->
  let app := routesApp cfg wd in
  handler app w req =
    (add_read (templateFile wd file) w,
     {| status := StatusNotFound; headers := htmlHeaders;
        body := Raw "Template not found" |}) /\
  snd (next (stack app) (stack app) (AcquireCtx req) w) = None /\
  snd (handler app (set_files fs' w) req') = snd (handler app w req').
Proof.
  intros Hin Hm Hdp Hfail Hother Hfs app. subst app.
  assert (Hgh : is_get_or_head (r_method req) = true) by (rewrite Hm; reflexivity).
  split; [|split].
  - rewrite (page_route cfg wd w req path file Hin Hgh Hdp).
    unfold pageAnswer. destruct Hfail as [-> | ->]; reflexivity.
  - rewrite routesApp_stack.
    destruct (page_next (routeStack wd) wd (AcquireCtx req) w path file Hin Hgh Hdp)
      as (c' & E & _).
    rewrite E. reflexivity.
  - destruct (is_get_or_head (r_method req') &&
              existsb (String.eqb (detectionPath (r_path req'))) routePaths)
      eqn:Hroute.
    + apply andb_prop in Hroute as [Hgh' Hex].
      apply in_routePaths_cases in Hex as [Hh | [file' Hin']].
      * rewrite !health_route by assumption. reflexivity.
      * rewrite !(page_route cfg wd _ req' _ file' Hin' Hgh' eq_refl).
        cbn [snd]. unfold pageAnswer. cbn [files set_files].
        destruct (htmlRoutes_files_differ _ _ _ _ Hin Hin' Hother) as [Hne _].
        rewrite Hfs; [reflexivity|].
        intros E. apply templateFile_inj in E. contradiction.
    + destruct (static_serves w wd req') eqn:Hst.
      * unfold static_serves in Hst.
        apply andb_prop in Hst as [Hst Hsome].
        apply andb_prop in Hst as [Hgh' Hp].
        apply bool_decide_eq_true in Hsome as [f Hf].
        rewrite (static_route cfg wd (set_files fs' w) req' f Hgh' Hp Hf).
        rewrite (static_route cfg wd w req' f Hgh' Hp Hf). reflexivity.
      * rewrite !catch_all_route by assumption.
        cbn [snd]. unfold notFoundAnswer, notFoundBody. cbn [files set_files].
        rewrite Hfs; [reflexivity|].
        intros E. apply templateFile_inj in E.
        assert (Hfile : In file (map snd htmlRoutes)) by (apply in_map_iff; exists (path, file); auto).
        cbn [htmlRoutes map snd In] in Hfile.
        destruct Hfile as [H|[H|[H|[H|[]]]]]; rewrite <- H in E; discriminate E.
Qed.

Lemma page_read_failure_is_local_witness :
  snd (handler (routesApp demoConfig demoWd) demoWorld
         (demoRequest MethodGet "/tutorial")) =
    {| status := 404; headers := htmlHeaders;
       body := Raw "Template not found" |} /\
  snd (handler (routesApp demoConfig demoWd)
         (set_files (delete (templateFile demoWd "tutorial.html")
                            (files demoWorld)) demoWorld)
         (demoRequest MethodGet "/")) =
  snd (handler (routesApp demoConfig demoWd) demoWorld
         (demoRequest MethodGet "/")).
Proof.
  pose proof (page_read_failure_is_local demoConfig demoWd demoWorld
                (demoRequest MethodGet "/tutorial") (demoRequest MethodGet "/")
                "/tutorial" "tutorial.html"
                (delete (templateFile demoWd "tutorial.html") (files demoWorld)))
    as H.
  destruct H as (H1 & _ & H3).
  - cbn [htmlRoutes In]. auto.
  - reflexivity.
  - reflexivity.
  - right. reflexivity.
  - vm_compute. discriminate.
  - intros p Hp. apply lookup_delete_ne. congruence.
  - split; [rewrite H1; reflexivity | exact H3].
Defined.

(** C9, as stated, fails: a route registered with [app.Get] also serves
    HEAD.  [HEAD /] on a deployment whose landing page is readable is a
    request to a configured path with a method other than GET; it is routed
    to the page handler and answered with status 200, not by the catch-all
    with 404. *)
Lemma head_request_reaches_page_handler :
  let req := demoRequest MethodHead "/" in
  let resp := snd (handler (routesApp demoConfig demoWd) demoWorld req) in
  r_method req <> MethodGet /\
  In (detectionPath (r_path req)) routePaths /\
  status resp = StatusOK /\
  status resp <> StatusNotFound /\
  body resp <> notFoundBody demoWorld demoWd.
Proof.
  cbn zeta.
  rewrite (page_route demoConfig demoWd demoWorld (demoRequest MethodHead "/")
             "/" "index.html"); [| cbn [htmlRoutes In]; auto | reflexivity ..].
  vm_compute. repeat split; try discriminate. auto.
Qed.

(** C9, amended.  The page and health routes are registered for GET and
    HEAD.  A request with any other method (POST, PUT, DELETE, CONNECT,
    OPTIONS, TRACE, PATCH), to a configured path or to any other, matches
    none of them and is answered by the catch-all: status 404, with the
    custom not-found document as body, or the fallback text when that
    document cannot be read. *)
Theorem other_methods_get_not_found
    (cfg : Config) (wd : FilePath) (w : World) (req : Request) :
  r_method req <> MethodGet -> r_method req <> MethodHead ->
  let app := routesApp cfg wd in
  Forall (fun r => rt_use r = false -> rt_methods r = [MethodHead; MethodGet])
         (stack app) /\
  Forall (fun r => rt_use r = false ->
                   route_applies r (AcquireCtx req) = false) (stack app) /\
  handler app w req =
    (add_read (templateFile wd "404.html") w,
     {| status := StatusNotFound; headers := htmlHeaders;
        body := notFoundBody w wd |}).
Proof.
  intros Hget Hhead app. subst app.
  assert (Hm : is_get_or_head (r_method req) = false)
    by (destruct (r_method req); try reflexivity; congruence).
  split; [|split].
  - rewrite routesApp_stack.
    repeat (apply Forall_cons; split); try (apply Forall_nil; exact I); intros Hu;
      first [ discriminate Hu | reflexivity ].
  - rewrite routesApp_stack.
    repeat (apply Forall_cons; split); try (apply Forall_nil; exact I); intros Hu;
      first [ discriminate Hu
            | rewrite getRoute_applies; cbn [request AcquireCtx];
              rewrite Hm; reflexivity ].
  - apply catch_all_route.
    + rewrite Hm. reflexivity.
    + unfold static_serves. rewrite Hm. reflexivity.
Qed.

Lemma other_methods_get_not_found_witness :
  snd (handler (routesApp demoConfig demoWd) demoWorld
         (demoRequest MethodPost "/")) =
  {| status := 404; headers := htmlHeaders; body := Raw "<html>Lost</html>" |}.
Proof.
  pose proof (other_methods_get_not_found demoConfig demoWd demoWorld
                (demoRequest MethodPost "/")) as H.
  destruct H as (_ & _ & H); [discriminate | discriminate |].
  rewrite H. reflexivity.
Defined.

(* ===================================================================== *)
(** ** The claims about configuration                                     *)
(* ===================================================================== *)

(** C10. [getEnv] returns the default for a variable set to the empty
    string exactly as for a variable that is not set.  With [PORT] empty the
    server listens on [:3000]; with [ENV] empty the mode is development and
    the route table is printed. *)
Theorem getEnv_empty_is_unset
    (env : gmap string string) (key defaultValue : string) (wd : FilePath) :
  getEnv (<[key := ""]> env) key defaultValue = defaultValue /\
  getEnv (delete key env) key defaultValue = defaultValue /\
  srv_addr <$> main (<["PORT" := ""]> env) (Some wd) = Some ":3000" /\
  getEnv (<["ENV" := ""]> env) "ENV" "development" = "development" /\
  EnablePrintRoutes (config (setupFiber (<["ENV" := ""]> env))) = true.
Proof.
  assert (Hset : forall k d, getEnv (<[k := ""]> env) k d = d).
  { intros k d. unfold getEnv, os_Getenv. rewrite lookup_insert_eq. reflexivity. }
  repeat split.
  - apply Hset.
  - unfold getEnv, os_Getenv. rewrite lookup_delete_eq. reflexivity.
  - cbn [main fmap option_fmap option_map srv_addr]. rewrite Hset. reflexivity.
  - apply Hset.
  - cbn [setupFiber]. unfold setupFiber.
    cbn [config Use addRoute New EnablePrintRoutes]. rewrite Hset. reflexivity.
Qed.

(** C8. The [ENV] variable decides one thing, whether [Listen] prints the
    route table at start-up (it does exactly when [getEnv "ENV"] is
    [development]).  Request handling does not depend on it: two servers
    started in the same directory under any two environments answer every
    request, in every state of the world, identically. *)
Theorem env_mode_only_changes_startup_output
    (env env' : gmap string string) (wd : FilePath) (w : World) (req : Request) :
  handler (mainApp env wd) w req = handler (mainApp env' wd) w req /\
  srv_output <$> main env (Some wd) =
    Some (StartupMessage appName (":" +:+ getEnv env "PORT" "3000") ::
          if String.eqb (getEnv env "ENV" "development") "development"
          then [RoutesMessage (map (fun r => (rt_methods r, rt_path r))
                                   (stack (mainApp env wd)))]
          else []) /\
  srv_app <$> main env (Some wd) = Some (mainApp env wd).
Proof.
  split; [reflexivity|]. split; [|reflexivity].
  cbn [main fmap option_fmap option_map srv_output]. unfold Listen.
  change (DisableStartupMessage (config (setupRoutes (setupFiber env) wd)))
    with false.
  change (EnablePrintRoutes (config (setupRoutes (setupFiber env) wd)))
    with (String.eqb (getEnv env "ENV" "development") "development").
  change (AppName (config (setupRoutes (setupFiber env) wd))) with appName.
  reflexivity.
Qed.

(* ===================================================================== *)
(** ** The claim about the error handler                                  *)
(* ===================================================================== *)



(* ===================================================================== *)
(** ** The claim about the security headers                               *)
(* ===================================================================== *)




(* ===================================================================== *)
(** ** The claim about the rate limiter                                   *)
(* ===================================================================== *)







(* ===================================================================== *)
(** ** Further properties of the program                                  *)
(* ===================================================================== *)

(** The route table, exactly: what it answers and what it reads. *)
Lemma routes_next_exact (all : list Route) (wd : FilePath) (c : Ctx) (w : World) :
  exists c',
    next all (routeStack wd) c w =
      (c', after_read wd w (routeRead wd w (request c)), None) /\
    request c' = request c /\
    response c' = routeResponse wd w (request c) (response c).
Proof.
  unfold routeResponse, routeRead.
  destruct (is_get_or_head (r_method (request c))) eqn:Hm.
  - destruct (String.eqb (detectionPath (r_path (request c))) "/health") eqn:Hh.
    { apply String.eqb_eq in Hh.
      destruct (health_next all wd c w Hm Hh) as (c' & E & Hr & R).
      exists c'. split; [exact E|]. split; assumption. }
    destruct (String.prefix "/static" (detectionPath (r_path (request c)))) eqn:Hp.
    + destruct (static_fs w (filepath_Join wd "static") (r_path (request c)))
        as [f|] eqn:Hf.
      { destruct (static_next all wd c w f Hm Hp Hf) as (c' & E & Hr & R).
        exists c'. split; [exact E|]. split; assumption. }
      destruct (find _ htmlRoutes) as [pf|] eqn:Hfind.
      * apply find_page_Some in Hfind.
        destruct (page_next all wd c w _ _ Hfind Hm eq_refl) as (c' & E & Hr & R).
        exists c'. split; [exact E|]. split; assumption.
      * destruct (catch_all_next all wd c w) as (c' & E & Hr & R).
        -- rewrite Hm, (find_page_None _ Hh Hfind). reflexivity.
        -- unfold static_serves. rewrite Hm, Hp, Hf. reflexivity.
        -- exists c'. split; [exact E|]. split; assumption.
    + destruct (find _ htmlRoutes) as [pf|] eqn:Hfind.
      * apply find_page_Some in Hfind.
        destruct (page_next all wd c w _ _ Hfind Hm eq_refl) as (c' & E & Hr & R).
        exists c'. split; [exact E|]. split; assumption.
      * destruct (catch_all_next all wd c w) as (c' & E & Hr & R).
        -- rewrite Hm, (find_page_None _ Hh Hfind). reflexivity.
        -- unfold static_serves. rewrite Hm, Hp. reflexivity.
        -- exists c'. split; [exact E|]. split; assumption.
  - destruct (catch_all_next all wd c w) as (c' & E & Hr & R).
    + rewrite Hm. reflexivity.
    + unfold static_serves. rewrite Hm. reflexivity.
    + exists c'. split; [exact E|]. split; assumption.
Qed.

Lemma routeRead_in_templates (wd : FilePath) (w : World) (req : Request)
    (name : string) :
  routeRead wd w req = Some name -> In name templateNames.
Proof.
  unfold routeRead, templateNames. intros H.
  repeat match type of H with
         | context [if ?b then _ else _] => destruct b
         | context [match ?x with Some _ => _ | None => _ end] =>
             destruct x eqn:?
         end; try discriminate H; injection H as <-;
    apply in_or_app; [| right; left; reflexivity ..].
  left. apply in_map.
  match goal with
  | Hf : find _ htmlRoutes = Some _ |- _ => apply find_some in Hf as [Hin _]; exact Hin
  end.
Qed.

Lemma mainApp_stack_split (env : gmap string string) (wd : FilePath) :
  stack (mainApp env wd) =
  useRoute (logger_New customErrorHandler) :: belowLogger wd.
Proof. reflexivity. Qed.

Lemma cors_preflight (req : Request) (w : World) (nxt : Ctx -> World -> Result) :
  is_preflight req = true ->
  cors_New corsConfig (AcquireCtx req) w nxt =
  (with_response (AcquireCtx req) preflightAnswer, w, None).
Proof.
  unfold is_preflight. intros Hpf.
  apply andb_prop in Hpf as [Hpf Hacrm]. apply andb_prop in Hpf as [Horigin Hopt].
  apply negb_true_iff in Horigin, Hacrm.
  unfold cors_New, c_Get. cbn [request AcquireCtx].
  rewrite Horigin, Hopt, Hacrm. cbn [andb negb].
  reflexivity.
Qed.

(** One request below the logger, in its three courses: answered by the
    CORS middleware, turned away by the limiter, or answered by a route. *)
Lemma below_logger_run (all : list Route) (wd : FilePath) (w : World)
    (req : Request) :
  exists c1 w1,
    next all (belowLogger wd) (AcquireCtx req) w = (c1, w1, None) /\
    request c1 = req /\
    ((is_preflight req = true /\ w1 = w /\ response c1 = preflightAnswer) \/
     (is_preflight req = false /\
      limiter_admits limiterConfig w (r_ip req) = false /\
      w1 = counted w req /\
      exists r0, secured r0 /\
        response c1 =
          rateLimited r0 (limiter_entry limiterConfig w (r_ip req)) (now w)) \/
     (is_preflight req = false /\
      limiter_admits limiterConfig w (r_ip req) = true /\
      w1 = after_read wd (counted w req) (routeRead wd w req) /\
      exists r0, secured r0 /\ status r0 = StatusOK /\
        response c1 =
          withRateLimitHeaders limiterConfig (routeResponse wd w req r0)
            (limiter_entry limiterConfig w (r_ip req)) (now w))).
Proof.
  unfold belowLogger. cbn [app].
  rewrite next_cons, useRoute_applies. cbn [rt_handler useRoute].
  unfold recover_New.
  rewrite next_cons, useRoute_applies. cbn [rt_handler useRoute].
  unfold compress_New.
  rewrite next_cons, useRoute_applies. cbn [rt_handler useRoute].
  cbn [matched AcquireCtx negb andb rt_use useRoute].
  change (if false then set_matched (AcquireCtx req) true else AcquireCtx req)
    with (AcquireCtx req).
  destruct (is_preflight req) eqn:Hpf.
  - rewrite (cors_preflight req w _ Hpf).
    eexists _, w. split; [reflexivity|]. split; [reflexivity|].
    left. repeat split.
  - destruct (cors_pass (AcquireCtx req) w
                (next all (useRoute securityHeaders ::
                           useRoute (limiter_New limiterConfig) :: routeStack wd))
                Hpf) as (c4 & -> & Hr4 & Hs4 & _).
    rewrite next_cons, useRoute_applies. cbn [rt_handler useRoute].
    match goal with
    | |- context [securityHeaders ?c ?w ?n] =>
        destruct (securityHeaders_run c w n) as (c5 & -> & Hr5 & Hs5 & _ & Hsec)
    end.
    rewrite request_mark in Hr5. rewrite response_mark in Hs5.
    rewrite next_cons, useRoute_applies. cbn [rt_handler useRoute].
    rewrite limiter_run. cbv zeta.
    rewrite request_mark, Hr5, Hr4. cbn [request AcquireCtx].
    destruct (limiter_admits limiterConfig w (r_ip req)).
    + match goal with
      | |- context [next all (routeStack wd) ?c ?w1] =>
          destruct (routes_next_exact all wd c w1) as (c' & -> & Hr' & R)
      end.
      rewrite request_mark, Hr5, Hr4 in Hr', R |- *.
      rewrite response_mark in R.
      cbn [request AcquireCtx] in Hr', R |- *.
      eexists _, _. split; [reflexivity|]. split; [exact Hr'|].
      right. right. split; [reflexivity|]. split; [reflexivity|].
      split; [reflexivity|].
      exists (response c5). split; [exact Hsec|].
      split; [rewrite Hs5, Hs4; reflexivity|].
      unfold withRateLimitHeaders.
      cbn [response c_Set with_response status headers body]. rewrite R.
      reflexivity.
    + unfold c_JSON.
      eexists _, _. split; [reflexivity|].
      split; [cbn [request c_Set c_Status set_body with_response];
              rewrite request_mark, Hr5, Hr4; reflexivity|].
      right. left. split; [reflexivity|]. split; [reflexivity|].
      split; [reflexivity|].
      exists (response c5). split; [exact Hsec|].
      unfold rateLimited, rateLimitBody.
      cbn [response c_Set c_Status set_body with_response status headers body].
      rewrite response_mark. reflexivity.
Qed.

(** The deployed application: the logger adds its line to what happened
    below it. *)
Lemma deployed_handler (env : gmap string string) (wd : FilePath) (w : World)
    (req : Request) (c1 : Ctx) (w1 : World) :
  next (stack (mainApp env wd)) (belowLogger wd) (AcquireCtx req) w =
    (c1, w1, None) ->
  request c1 = req ->
  handler (mainApp env wd) w req =
  (add_log (requestLog req (status (response c1))) w1, response c1).
Proof.
  intros E Hr. unfold handler. rewrite mainApp_stack_split at 2.
  rewrite next_cons, useRoute_applies. cbn [rt_handler useRoute].
  unfold logger_New.
  cbn [matched AcquireCtx negb andb rt_use useRoute].
  change (if false then set_matched (AcquireCtx req) true else AcquireCtx req)
    with (AcquireCtx req).
  rewrite E. cbv beta iota. unfold requestLog. rewrite Hr. reflexivity.
Qed.

(* --------------------------------------------------------------------- *)
(** *** getEnv and main                                                   *)
(* --------------------------------------------------------------------- *)




(* --------------------------------------------------------------------- *)
(** *** securityHeaders and customErrorHandler                            *)
(* --------------------------------------------------------------------- *)

Lemma c_Set_same (c : Ctx) (k v : string) :
  headers (response c) !! k = Some v -> c_Set c k v = c.
Proof.
  destruct c as [rq [st hs bd] m]. cbn. intros H.
  unfold c_Set, with_response. cbn. rewrite (insert_id _ _ _ H). reflexivity.
Qed.

(** X3. [securityHeaders] always continues the chain and returns what the
    chain returns.  The context it passes on differs from the one it got in
    its six headers alone: each has its fixed value, replacing whatever an
    earlier handler had set, and the request, the status, the body and every
    other header are as before.  Running it again changes nothing. *)
Theorem securityHeaders_sets_only_its_headers
    (c : Ctx) (w : World) (nxt : Ctx -> World -> Result) :
  exists c',
    securityHeaders c w nxt = nxt c' w /\
    request c' = request c /\ matched c' = matched c /\
    status (response c') = status (response c) /\
    body (response c') = body (response c) /\
    (forall k v, In (k, v) securityHeaderList ->
                 headers (response c') !! k = Some v) /\
    (forall k, ~ In k (map fst securityHeaderList) ->
               headers (response c') !! k = headers (response c) !! k) /\
    securityHeaders c' w nxt = nxt c' w.
Proof.
  pose (c' := c_Set (c_Set (c_Set (c_Set (c_Set (c_Set c
                "X-Content-Type-Options" "nosniff")
                "X-Frame-Options" "DENY")
                "X-XSS-Protection" "1; mode=block")
                "Referrer-Policy" "strict-origin-when-cross-origin")
                "Permissions-Policy" "default-src 'self'")
                "X-Application-Version" version).
  assert (Hset : forall k v, In (k, v) securityHeaderList ->
                             headers (response c') !! k = Some v).
  { intros k v Hin. cbn [securityHeaderList In] in Hin.
    subst c'. cbn [response c_Set with_response headers].
    destruct Hin as [H|[H|[H|[H|[H|[H|[]]]]]]]; injection H as <- <-;
      repeat (first [ apply lookup_insert_eq
                    | rewrite lookup_insert_ne by discriminate ]). }
  exists c'. split; [reflexivity|].
  split; [reflexivity|]. split; [reflexivity|].
  split; [reflexivity|]. split; [reflexivity|].
  split; [exact Hset|]. split.
  - intros k Hk. cbn [securityHeaderList map fst In] in Hk.
    subst c'. cbn [response c_Set with_response headers].
    rewrite !lookup_insert_ne by (intros E; apply Hk; rewrite E; tauto).
    reflexivity.
  - unfold securityHeaders.
    rewrite !(c_Set_same c')
      by (apply Hset; cbn [securityHeaderList In]; auto 10).
    reflexivity.
Qed.

(** X4. [customErrorHandler] leaves the request and every response header
    but [Content-Type] as they were, so an error answer keeps the security
    headers set before it; and it declares [application/json] for every
    error, the not-found error with its plain-text body included. *)
Theorem error_handler_keeps_other_headers (c : Ctx) (err : error) (w : World) :
  let c' := fst (fst (customErrorHandler c err w)) in
  request c' = request c /\
  headers (response c') !! "Content-Type" = Some "application/json" /\
  (forall k, k <> "Content-Type" ->
             headers (response c') !! k = headers (response c) !! k) /\
  (secured (response c) -> secured (response c')).
Proof.
  cbn zeta. unfold customErrorHandler, c_JSON, c_SendString.
  set (code := match err with
               | FiberError Code _ => Code
               | OtherError _ => StatusInternalServerError
               end).
  destruct (code =? StatusNotFound);
    cbn [fst request response c_Set c_Status set_body with_response
         status headers body];
    (split; [reflexivity|]);
    (split; [repeat (first [ apply lookup_insert_eq
                           | rewrite lookup_insert_ne by discriminate ])|]);
    (split; [intros k Hk; rewrite !lookup_insert_ne by congruence; reflexivity|]);
    intros Hs; unfold secured in *;
    repeat (apply secured_insert; [reflexivity|]); exact Hs.
Qed.

(* --------------------------------------------------------------------- *)
(** *** The stack as a whole                                              *)
(* --------------------------------------------------------------------- *)

(** X5. No request runs off the end of the stack.  The catch-all that
    [setupRoutes] registers last answers whatever no route before it
    answered, so the chain returns no error: neither with the route table
    alone nor below the logger of the deployed application.  No request thus
    reaches the framework's own 404 or 405, and none is handed to
    [customErrorHandler] by the router. *)
Theorem no_request_runs_off_the_stack
    (env : gmap string string) (cfg : Config) (wd : FilePath) (w : World)
    (req : Request) :
  snd (next (stack (routesApp cfg wd)) (stack (routesApp cfg wd))
            (AcquireCtx req) w) = None /\
  stack (mainApp env wd) =
    useRoute (logger_New customErrorHandler) :: belowLogger wd /\
  snd (next (stack (mainApp env wd)) (belowLogger wd) (AcquireCtx req) w) = None.
Proof.
  split; [|split; [reflexivity|]].
  - rewrite routesApp_stack.
    destruct (routes_next_exact (routeStack wd) wd (AcquireCtx req) w)
      as (c' & -> & _). reflexivity.
  - destruct (below_logger_run (stack (mainApp env wd)) wd w req)
      as (c1 & w1 & -> & _). reflexivity.
Qed.

Lemma next_ext_tail (all all' : list Route) (S T T' : list Route) :
  Forall (fun r => extensional (rt_handler r)) S ->
  (forall c w, next all T c w = next all' T' c w) ->
  forall c w, next all (S ++ T) c w = next all' (S ++ T') c w.
Proof.
  intros HS HT. induction S as [|r S IH]; [exact HT|].
  apply Forall_cons in HS as [Hr HS]. specialize (IH HS).
  intros c w. cbn [app]. rewrite !next_cons.
  destruct (route_applies r c); [|apply IH].
  apply Hr. exact IH.
Qed.

Lemma catch_all_ends_the_stack (all all' : list Route) (tp : FilePath)
    (later : list Route) (c : Ctx) (w : World) :
  next all (useRoute (notFoundHandler tp) :: later) c w =
  next all' [useRoute (notFoundHandler tp)] c w.
Proof.
  rewrite !next_cons, useRoute_applies. cbn [rt_handler useRoute].
  rewrite !notFoundHandler_run. reflexivity.
Qed.

Lemma extensional_logger (eh : Ctx -> error -> World -> Result) :
  extensional (logger_New eh).
Proof. intros c w n n' H. unfold logger_New. rewrite H. reflexivity. Qed.

Lemma extensional_cors : extensional (cors_New corsConfig).
Proof.
  intros c w n n' H. unfold cors_New.
  repeat match goal with
         | |- context [if ?b then _ else _] => destruct b
         end; try apply H; reflexivity.
Qed.

Lemma extensional_securityHeaders : extensional securityHeaders.
Proof. intros c w n n' H. unfold securityHeaders. apply H. Qed.

Lemma extensional_limiter : extensional (limiter_New limiterConfig).
Proof. intros c w n n' H. rewrite !limiter_run. cbv zeta. rewrite H. reflexivity. Qed.

Lemma extensional_static (root : FilePath) : extensional (static_handler root).
Proof.
  intros c w n n' H. unfold static_handler.
  destruct (static_fs w root (r_path (request c))); [reflexivity | apply H].
Qed.

Lemma stack_registerAfter (later : list Route) (app : App) :
  stack (registerAfter app later) = (stack app ++ later)%list /\
  config (registerAfter app later) = config app.
Proof.
  unfold registerAfter. revert app.
  induction later as [|r later IH]; intros app; cbn [fold_left].
  - rewrite app_nil_r. split; reflexivity.
  - destruct (IH (addRoute app r)) as [-> ->]. cbn [addRoute stack config].
    rewrite <- app_assoc. split; reflexivity.
Qed.

(** X6. The catch-all must be last, and is: whatever routes are registered
    on the application after [setupRoutes], with whatever handlers, no
    request ever reaches them, and every request is answered exactly as
    without them. *)
Theorem routes_after_the_catch_all_are_dead
    (env : gmap string string) (wd : FilePath) (later : list Route)
    (w : World) (req : Request) :
  handler (registerAfter (mainApp env wd) later) w req =
  handler (mainApp env wd) w req.
Proof.
  unfold handler.
  destruct (stack_registerAfter later (mainApp env wd)) as [Hst Hcfg].
  rewrite Hcfg.
  set (all := stack (registerAfter (mainApp env wd) later)).
  set (all' := stack (mainApp env wd)).
  assert (E : forall c w, next all all c w = next all' all' c w).
  { subst all all'. rewrite Hst.
    set (big := (stack (mainApp env wd) ++ later)%list).
    set (small := stack (mainApp env wd)).
    change (stack (mainApp env wd)) with
      (removelast (stack (mainApp env wd)) ++
       [useRoute (notFoundHandler (filepath_Join wd "templates"))])%list
      in (value of big), (value of small).
    subst big small. rewrite <- app_assoc.
    set (big := (_ ++ _ ++ later)%list) at 1.
    set (small := (_ ++ [_])%list) at 2.
    apply next_ext_tail.
    - cbn [removelast mainApp setupRoutes setupFiber Use Get Static addRoute
           stack app New].
      repeat (apply Forall_cons; split);
        try (apply Forall_nil; exact I);
        cbn [rt_handler useRoute getRoute staticRoute];
        first [ apply extensional_logger | apply extensional_cors
              | apply extensional_securityHeaders | apply extensional_limiter
              | apply extensional_static
              | intros c0 w0 n n' H; reflexivity
              | intros c0 w0 n n' H; apply H ].
    - intros c0 w0. apply catch_all_ends_the_stack. }
  rewrite E. reflexivity.
Qed.

Lemma deployed_request (env : gmap string string) (wd : FilePath) (w : World)
    (req : Request) :
  exists c1 w1,
    handler (mainApp env wd) w req =
      (add_log (requestLog req (status (response c1))) w1, response c1) /\
    ((is_preflight req = true /\ w1 = w /\ response c1 = preflightAnswer) \/
     (is_preflight req = false /\
      limiter_admits limiterConfig w (r_ip req) = false /\
      w1 = counted w req /\
      exists r0, secured r0 /\
        response c1 =
          rateLimited r0 (limiter_entry limiterConfig w (r_ip req)) (now w)) \/
     (is_preflight req = false /\
      limiter_admits limiterConfig w (r_ip req) = true /\
      w1 = after_read wd (counted w req) (routeRead wd w req) /\
      exists r0, secured r0 /\ status r0 = StatusOK /\
        response c1 =
          withRateLimitHeaders limiterConfig (routeResponse wd w req r0)
            (limiter_entry limiterConfig w (r_ip req)) (now w))).
Proof.
  destruct (below_logger_run (stack (mainApp env wd)) wd w req)
    as (c1 & w1 & E & Hr & Hcases).
  exists c1, w1. split; [|exact Hcases].
  apply deployed_handler; assumption.
Qed.

Lemma after_read_frame (wd : FilePath) (w : World) (name : option string) :
  now (after_read wd w name) = now w /\
  files (after_read wd w name) = files w /\
  static_fs (after_read wd w name) = static_fs w /\
  hits (after_read wd w name) = hits w /\
  logs (after_read wd w name) = logs w.
Proof. destruct name; repeat split. Qed.

(* --------------------------------------------------------------------- *)
(** *** What a request does to the world                                  *)
(* --------------------------------------------------------------------- *)

(** X7. The server reads at most one file per request with [os.ReadFile],
    and only ever one of the five templates below [<wd>/templates]: the
    name of the file comes from the route, never from the request.  A
    request turned away by the limiter and a CORS preflight read nothing.
    No request changes the file system. *)
Theorem reads_stay_within_templates
    (env : gmap string string) (wd : FilePath) (w : World) (req : Request) :
  let w' := fst (handler (mainApp env wd) w req) in
  (reads w' = reads w \/
   exists name, In name templateNames /\
                reads w' = templateFile wd name :: reads w) /\
  (is_preflight req = true \/
   limiter_admits limiterConfig w (r_ip req) = false ->
   reads w' = reads w) /\
  files w' = files w /\ static_fs w' = static_fs w.
Proof.
  cbn zeta.
  destruct (deployed_request env wd w req) as (c1 & w1 & -> & Hcases).
  cbn [fst reads files static_fs add_log].
  destruct Hcases as [(Hpf & -> & _) | [(Hpf & Hadm & -> & _) | (Hpf & Hadm & -> & _)]].
  - repeat split; auto.
  - repeat split; auto.
  - destruct (routeRead wd w req) as [name|] eqn:Hread;
      cbn [after_read add_read counted set_hits reads files static_fs].
    + split; [right; exists name; split;
              [eapply routeRead_in_templates; exact Hread | reflexivity]|].
      split; [intros [H|H]; congruence|]. split; reflexivity.
    + repeat split; auto.
Qed.

(** X8. The limiter keeps one count per client IP.  A request changes the
    entry of no other client, and leaves the clock alone, so whether another
    client is admitted does not depend on it.  Every request that is not a
    CORS preflight is counted for its own client, whatever its path and
    method and whether or not it was admitted; a preflight is not counted. *)
Theorem limiter_counts_per_client
    (env : gmap string string) (wd : FilePath) (w : World) (req : Request)
    (other : string) :
  other <> r_ip req ->
  let w' := fst (handler (mainApp env wd) w req) in
  hits w' !! other = hits w !! other /\
  now w' = now w /\
  limiter_admits limiterConfig w' other = limiter_admits limiterConfig w other /\
  (if is_preflight req then hits w' = hits w
   else hits w' !! r_ip req =
        Some (limiter_entry limiterConfig w (r_ip req))).
Proof.
  intros Hother. cbn zeta.
  destruct (deployed_request env wd w req) as (c1 & w1 & -> & Hcases).
  cbn [fst hits now add_log].
  assert (Hframe :
    hits w1 !! other = hits w !! other /\ now w1 = now w /\
    (if is_preflight req then hits w1 = hits w
     else hits w1 !! r_ip req = Some (limiter_entry limiterConfig w (r_ip req)))).
  { destruct Hcases as [(Hpf & -> & _) | [(Hpf & Hadm & -> & _) | (Hpf & Hadm & -> & _)]];
      rewrite Hpf.
    - repeat split.
    - cbn [counted hits now set_hits].
      rewrite lookup_insert_ne by congruence. rewrite lookup_insert_eq.
      repeat split.
    - destruct (after_read_frame wd (counted w req) (routeRead wd w req))
        as (-> & _ & _ & -> & _).
      cbn [counted hits now set_hits].
      rewrite lookup_insert_ne by congruence. rewrite lookup_insert_eq.
      repeat split. }
  destruct Hframe as (Hh & Hn & Hown).
  repeat split; try assumption.
  unfold limiter_admits. cbn [hits now add_log]. rewrite Hh, Hn. reflexivity.
Qed.

Lemma limiter_counts_per_client_witness :
  let w' := fst (handler (mainApp ∅ demoWd) exhaustedWorld
                         (demoRequest MethodGet "/")) in
  hits w' !! "198.51.100.9" = None /\
  limiter_admits limiterConfig w' "198.51.100.9" = true.
Proof.
  pose proof (limiter_counts_per_client ∅ demoWd exhaustedWorld
                (demoRequest MethodGet "/") "198.51.100.9") as H.
  destruct H as (Hh & _ & Hadm & _); [discriminate|].
  split; [rewrite Hh | rewrite Hadm]; reflexivity.
Defined.

(* --------------------------------------------------------------------- *)
(** *** The order of the middleware                                       *)
(* --------------------------------------------------------------------- *)

(** X9. A CORS preflight, to whatever path, is answered by the CORS
    middleware with status 204 and the policy of [setupFiber]: every origin,
    the methods [GET,POST,OPTIONS] and the four allowed headers.  As that
    middleware stands before the limiter and the routes, the preflight is
    not counted against the client, no file is read for it, and all it
    leaves behind is its log line. *)
Theorem preflight_is_answered_by_cors
    (env : gmap string string) (wd : FilePath) (w : World) (req : Request) :
  is_preflight req = true ->
  handler (mainApp env wd) w req =
    (add_log (requestLog req StatusNoContent) w, preflightAnswer) /\
  headers preflightAnswer !! "Access-Control-Allow-Origin" = Some "*" /\
  headers preflightAnswer !! "Access-Control-Allow-Methods" =
    Some (AllowMethods corsConfig) /\
  headers preflightAnswer !! "Access-Control-Allow-Headers" =
    Some (AllowHeaders corsConfig).
Proof.
  intros Hpf.
  split; [|split; [|split]; vm_compute; reflexivity].
  destruct (deployed_request env wd w req) as (c1 & w1 & -> & Hcases).
  destruct Hcases as [(_ & -> & ->) | [(Hpf' & _) | (Hpf' & _)]];
    [reflexivity | congruence | congruence].
Qed.

Lemma preflight_is_answered_by_cors_witness :
  handler (mainApp ∅ demoWd) exhaustedWorld preflightRequest =
  (add_log (requestLog preflightRequest 204) exhaustedWorld, preflightAnswer).
Proof.
  exact (proj1 (preflight_is_answered_by_cors ∅ demoWd exhaustedWorld
                  preflightRequest eq_refl)).
Defined.

(** X10. The logger stands first in the chain, so every request, whatever
    becomes of it (answered by a route, turned away with 429, answered as a
    preflight with 204), adds exactly one line to the log, and the line
    holds the method and path of the request and the status of the response
    that is sent. *)
Theorem every_request_is_logged_once
    (env : gmap string string) (wd : FilePath) (w : World) (req : Request) :
  let out := handler (mainApp env wd) w req in
  logs (fst out) = requestLog req (status (snd out)) :: logs w.
Proof.
  cbn zeta.
  destruct (deployed_request env wd w req) as (c1 & w1 & -> & Hcases).
  cbn [fst snd logs add_log]. f_equal.
  destruct Hcases as [(_ & -> & _) | [(_ & _ & -> & _) | (_ & _ & -> & _)]];
    try reflexivity.
  destruct (after_read_frame wd (counted w req) (routeRead wd w req))
    as (_ & _ & _ & _ & ->). reflexivity.
Qed.

(* --------------------------------------------------------------------- *)
(** *** The route table                                                   *)
(* --------------------------------------------------------------------- *)





(* --------------------------------------------------------------------- *)
(** *** Across handlers                                                   *)
(* --------------------------------------------------------------------- *)


(** X13. The deployed application reports one version in two places: for a
    health check that the limiter admits, the [version] field of the JSON
    body and the [X-Application-Version] header of the same response hold
    the same string, and the [app] field is the name the start-up banner
    shows. *)
Theorem health_reports_the_header_version
    (env : gmap string string) (wd : FilePath) (w : World) (req : Request) :
  r_method req = MethodGet ->
  detectionPath (r_path req) = "/health" ->
  limiter_admits limiterConfig w (r_ip req) = true ->
  let resp := snd (handler (mainApp env wd) w req) in
  exists v m,
    headers resp !! "X-Application-Version" = Some v /\
    body resp = JSONOf m /\
    m !! "version" = Some (JString v) /\
    m !! "app" = Some (JString (AppName (config (mainApp env wd)))).
Proof.
  intros Hm Hdp Hadm. cbn zeta.
  destruct (deployed_request env wd w req) as (c1 & w1 & -> & Hcases).
  cbn [snd].
  destruct Hcases as [(Hpf & _) | [(_ & Hadm' & _) | (_ & _ & _ & r0 & Hsec & _ & ->)]].
  - rewrite (get_is_no_preflight req Hm) in Hpf. discriminate Hpf.
  - congruence.
  - exists version. eexists.
    unfold routeResponse. rewrite Hm, Hdp. cbn [is_get_or_head].
    change (String.eqb "/health" "/health") with true. cbv iota.
    unfold withRateLimitHeaders, healthResponse. cbn [status headers body].
    split; [|split; [reflexivity|split]].
    + rewrite !lookup_insert_ne by discriminate.
      apply secured_lookup; [exact Hsec|].
      cbn [securityHeaderList In]. auto 10.
    + rewrite lookup_insert_ne by discriminate. apply lookup_insert_eq.
    + rewrite !lookup_insert_ne by discriminate. apply lookup_singleton_eq.
Qed.

Lemma health_reports_the_header_version_witness :
  exists v m,
    headers (snd (handler (mainApp ∅ demoWd) demoWorld
                    (demoRequest MethodGet "/health")))
      !! "X-Application-Version" = Some v /\
    body (snd (handler (mainApp ∅ demoWd) demoWorld
                 (demoRequest MethodGet "/health"))) = JSONOf m /\
    m !! "version" = Some (JString v).
Proof.
  destruct (health_reports_the_header_version ∅ demoWd demoWorld
              (demoRequest MethodGet "/health") eq_refl eq_refl eq_refl)
    as (v & m & H1 & H2 & H3 & _).
  exists v, m. repeat split; assumption.
Defined.

(** X14. The limiter stands before the route table, so no route is exempt
    from it, the health check included: a request of a client whose window
    is full is answered with status 429 and the body of [LimitReached]
    whatever its path and method, the route table is not consulted, and no
    file is read. *)
Theorem no_route_is_exempt_from_the_limit
    (env : gmap string string) (wd : FilePath) (w : World) (req : Request) :
  is_preflight req = false ->
  limiter_admits limiterConfig w (r_ip req) = false ->
  let out := handler (mainApp env wd) w req in
  status (snd out) = StatusTooManyRequests /\
  body (snd out) = rateLimitBody /\
  headers (snd out) !! "Content-Type" = Some "application/json" /\
  reads (fst out) = reads w.
Proof.
  intros Hpf Hadm. cbn zeta.
  destruct (deployed_request env wd w req) as (c1 & w1 & -> & Hcases).
  cbn [fst snd reads add_log].
  destruct Hcases as [(Hpf' & _) | [(_ & _ & -> & r0 & _ & ->) | (_ & Hadm' & _)]];
    [congruence | | congruence].
  repeat split. unfold rateLimited. cbn [headers]. apply lookup_insert_eq.
Qed.

Lemma no_route_is_exempt_from_the_limit_witness :
  status (snd (handler (mainApp ∅ demoWd) exhaustedWorld
                 (demoRequest MethodGet "/health"))) = 429.
Proof.
  exact (proj1 (no_route_is_exempt_from_the_limit ∅ demoWd exhaustedWorld
                  (demoRequest MethodGet "/health") eq_refl eq_refl)).
Defined.





(* --------------------------------------------------------------------- *)
(** *** The file system and the limiter's storage over time               *)
(* --------------------------------------------------------------------- *)



Lemma limiter_entry_ok (w : World) (key : string) :
  store_ok w ->
  exp (limiter_entry limiterConfig w key) <> 0%N /\
  1 <= currHits (limiter_entry limiterConfig w key).
Proof.
  intros Hok. unfold limiter_entry.
  destruct (hits w !! key) as [e|] eqn:He; cbn [default from_option id].
  - destruct (Hok key e He) as [Hexp Hcount].
    destruct (N.eqb_spec (exp e) 0); [contradiction|].
    destruct (exp e <=? now w)%N; cbn [exp currHits Expiration limiterConfig];
      split; lia.
  - cbn [exp currHits Expiration limiterConfig N.eqb]. split; lia.
Qed.

Lemma handler_keeps_store_ok (env : gmap string string) (wd : FilePath)
    (w : World) (req : Request) :
  store_ok w -> store_ok (fst (handler (mainApp env wd) w req)).
Proof.
  intros Hok.
  destruct (deployed_request env wd w req) as (c1 & w1 & -> & Hcases).
  unfold store_ok. cbn [fst hits add_log].
  destruct Hcases as [(_ & -> & _) | [(_ & _ & -> & _) | (_ & _ & -> & _)]].
  - exact Hok.
  - cbn [counted hits set_hits]. apply map_Forall_insert_2; [|exact Hok].
    apply limiter_entry_ok, Hok.
  - destruct (after_read_frame wd (counted w req) (routeRead wd w req))
      as (_ & _ & _ & -> & _).
    cbn [counted hits set_hits]. apply map_Forall_insert_2; [|exact Hok].
    apply limiter_entry_ok, Hok.
Qed.

(** X17. Starting with an empty store, whatever requests arrive, from
    whatever clients and at whatever times, every entry the limiter holds
    has a window end and a count of at least one; and no client is locked
    out for good: a client whose window has ended, or who has no entry, is
    admitted with its next request. *)
Theorem no_client_is_locked_out
    (env : gmap string string) (wd : FilePath) (w : World)
    (rs : list (N * Request)) (ip : string) (t : N) :
  hits w = ∅ ->
  let w' := fst (serve_all (mainApp env wd) w rs) in
  store_ok w' /\
  ((forall e, hits w' !! ip = Some e -> (exp e <= t)%N) ->
   limiter_admits limiterConfig (set_now t w') ip = true).
Proof.
  intros Hempty. cbn zeta.
  assert (Hok : store_ok w).
  { unfold store_ok. rewrite Hempty. apply map_Forall_empty. }
  clear Hempty.
  assert (Hall : store_ok (fst (serve_all (mainApp env wd) w rs))).
  { revert w Hok. induction rs as [|[t1 r1] rs IH]; intros w Hok; [exact Hok|].
    cbn [serve_all]. unfold serve.
    pose proof (handler_keeps_store_ok env wd (set_now t1 w) r1 Hok) as H1.
    destruct (handler (mainApp env wd) (set_now t1 w) r1) as [w1 resp].
    cbn [fst] in H1. specialize (IH w1 H1).
    destruct (serve_all (mainApp env wd) w1 rs) as [w2 resps]. exact IH. }
  split; [exact Hall|].
  intros Hended. unfold limiter_admits. cbn [hits now set_now].
  destruct (hits (fst (serve_all (mainApp env wd) w rs)) !! ip) as [e|] eqn:He;
    [|reflexivity].
  destruct (Hall ip e He) as [Hexp _].
  destruct (N.eqb_spec (exp e) 0); [contradiction|].
  destruct (N.leb_spec (exp e) t); [reflexivity|].
  specialize (Hended e eq_refl). lia.
Qed.

Lemma no_client_is_locked_out_witness :
  let w' := fst (serve_all (mainApp ∅ demoWd) demoWorld
                   [(1000%N, demoRequest MethodGet "/");
                    (1001%N, demoRequest MethodGet "/health")]) in
  limiter_admits limiterConfig (set_now 1060 w') "203.0.113.7" = true.
Proof.
  refine (proj2 (no_client_is_locked_out ∅ demoWd demoWorld _ "203.0.113.7"
                   1060 eq_refl) _).
  intros e He. vm_compute in He. injection He as <-. vm_compute. discriminate.
Defined.
